(** * type-is: a shallow embedding of src/src/type-is.ts

    The module exports [is], [hasBody], [typeIs], [normalize] and
    [mimeMatch]; the private [normalizeType] and [tryNormalizeType] call the
    [content-type] package ([parse], [format]) and [normalize] calls the
    [mime-types] package ([lookup], which uses Node's [path.extname]).  Those
    library routines are embedded below from their published JavaScript.

    Strings are Rocq strings whose characters are read as UTF-16 code units
    in the range 0..255 (Latin-1); JavaScript's whitespace and case mapping
    are written out for that range.  A thrown exception is the [Throw]
    branch of the [Exc] monad. *)

From Stdlib Require Import String Ascii ZArith Bool List Lia.
From stdpp Require Import base gmap strings list.

Local Open Scope string_scope.

(** ** JavaScript values and exceptions *)

Set Warnings "-register-all".

(** The values a caller can pass where the code expects a string. *)
Inductive JVal : Type :=
| JUndefined
| JNull
| JBool (b : bool)
| JNum (z : Z)
| JStr (s : string)
| JFun
| JObj
| JArr (l : list JVal).

(** A computation that returns a value or throws. *)
Inductive Exc (A : Type) : Type :=
| Ret (a : A)
| Throw (err : string).
Arguments Ret {A} a.
Arguments Throw {A} err.

Global Instance Exc_ret : MRet Exc := fun A a => Ret a.
Global Instance Exc_bind : MBind Exc := fun A B f m =>
  match m with Ret a => f a | Throw e => Throw e end.

(** ** Characters *)

Definition code (c : ascii) : nat := nat_of_ascii c.
Definition in_range (lo hi : nat) (c : ascii) : bool :=
  Nat.leb lo (code c) && Nat.leb (code c) hi.

Definition is_digit : ascii -> bool := in_range 48 57.
Definition is_upper : ascii -> bool := in_range 65 90.
Definition is_lower : ascii -> bool := in_range 97 122.

(** [[!#$%&'*+.^_`|~0-9A-Za-z-]], the token characters of [content-type]. *)
Definition tchar (c : ascii) : bool :=
  is_digit c || is_upper c || is_lower c ||
  existsb (Ascii.eqb c) (list_ascii_of_string "!#$%&'*+.^_`|~-").

(** WhiteSpace and LineTerminator of ECMAScript within 0..255:
    TAB, LF, VT, FF, CR, SPACE, NBSP. *)
Definition js_ws (c : ascii) : bool :=
  in_range 9 13 c || Nat.eqb (code c) 32 || Nat.eqb (code c) 160.

(** [String.prototype.toLowerCase] on one code unit of 0..255. *)
Definition js_lower_char (c : ascii) : ascii :=
  if is_upper c then ascii_of_nat (code c + 32)
  else if in_range 192 222 c && negb (Nat.eqb (code c) 215) then ascii_of_nat (code c + 32)
  else c.

Definition dquote : ascii := ascii_of_nat 34.
Definition bslash : ascii := ascii_of_nat 92.

(** ** String primitives *)

Fixpoint str_map (f : ascii -> ascii) (s : string) : string :=
  match s with
  | EmptyString => EmptyString
  | String c r => String (f c) (str_map f r)
  end.

Fixpoint str_forallb (p : ascii -> bool) (s : string) : bool :=
  match s with
  | EmptyString => true
  | String c r => p c && str_forallb p r
  end.

Fixpoint str_existsb (p : ascii -> bool) (s : string) : bool :=
  match s with
  | EmptyString => false
  | String c r => p c || str_existsb p r
  end.

Definition js_toLowerCase : string -> string := str_map js_lower_char.

Fixpoint js_trimStart (s : string) : string :=
  match s with
  | EmptyString => EmptyString
  | String c r => if js_ws c then js_trimStart r else s
  end.

Fixpoint js_trimEnd (s : string) : string :=
  match s with
  | EmptyString => EmptyString
  | String c r =>
      let r' := js_trimEnd r in
      if js_ws c && String.eqb r' "" then EmptyString else String c r'
  end.

Definition js_trim (s : string) : string := js_trimEnd (js_trimStart s).

(** [s.indexOf(c)] for a one-character [c]; [None] is [-1]. *)
Fixpoint js_indexOf (c : ascii) (s : string) : option nat :=
  match s with
  | EmptyString => None
  | String d r => if Ascii.eqb d c then Some 0 else option_map S (js_indexOf c r)
  end.

(** [s.split(sep)] for a one-character separator. *)
Fixpoint js_split (sep : ascii) (s : string) : list string :=
  match s with
  | EmptyString => [EmptyString]
  | String c r =>
      if Ascii.eqb c sep then EmptyString :: js_split sep r
      else match js_split sep r with
           | x :: xs => String c x :: xs
           | [] => [String c EmptyString]
           end
  end.

(** Relative index of [slice]: negative counts from the end, clamped. *)
Definition js_rel (len : nat) (z : Z) : nat :=
  if (z <? 0)%Z then Z.to_nat (Z.max (Z.of_nat len + z) 0)
  else Z.to_nat (Z.min z (Z.of_nat len)).

(** [s.slice(start)] ([end_ = None]) and [s.slice(start, end)]. *)
Definition js_slice (s : string) (start : Z) (end_ : option Z) : string :=
  let len := String.length s in
  let from := js_rel len start in
  let to := match end_ with None => len | Some e => js_rel len e end in
  substring from (to - from) s.

(** [s[0] === c]: [s[0]] is [undefined] on the empty string. *)
Definition js_at0_is (s : string) (c : ascii) : bool :=
  match s with
  | EmptyString => false
  | String d _ => Ascii.eqb d c
  end.

(** ** The [content-type] package: [parse] and [format] *)

Record ContentType := mkContentType {
  ct_type : string;
  ct_parameters : list (string * string)
}.

Definition token_test (s : string) : bool :=
  negb (String.eqb s "") && str_forallb tchar s.

(** [TYPE_REGEXP = /^token\/token$/]: tokens hold no ['/'], so the test
    holds iff splitting on ['/'] gives exactly two tokens. *)
Definition type_regexp_test (s : string) : bool :=
  match js_split "/" s with
  | [a; b] => token_test a && token_test b
  | _ => false
  end.

(** [ *] of [PARAM_REGEXP]: U+0020 only. *)
Fixpoint skip_spaces (s : string) : string :=
  match s with
  | String c r => if Ascii.eqb c " " then skip_spaces r else s
  | EmptyString => EmptyString
  end.

(** Greedy [token*]: the longest token prefix and the rest. *)
Fixpoint span_token (s : string) : string * string :=
  match s with
  | EmptyString => (EmptyString, EmptyString)
  | String c r =>
      if tchar c then let (t, u) := span_token r in (String c t, u)
      else (EmptyString, s)
  end.

(** [[\u000b\u0020\u0021\u0023-\u005b\u005d-\u007e\u0080-\u00ff]] *)
Definition qdtext (c : ascii) : bool :=
  Nat.eqb (code c) 11 || in_range 32 33 c || in_range 35 91 c ||
  in_range 93 126 c || in_range 128 255 c.

(** [[\u000b\u0020-\u00ff]], the characters a backslash may escape. *)
Definition qesc (c : ascii) : bool := Nat.eqb (code c) 11 || in_range 32 255 c.

(** The body of a quoted string after its opening quote: the value with
    the quotes removed and the escapes replaced ([QESC_REGEXP]), and the
    text after the closing quote. *)
Fixpoint quoted_rest (s : string) : option (string * string) :=
  match s with
  | EmptyString => None
  | String c r =>
      if Ascii.eqb c dquote then Some (EmptyString, r)
      else if Ascii.eqb c bslash then
        match r with
        | String d r' =>
            if qesc d then option_map (fun vu => (String d vu.1, vu.2)) (quoted_rest r')
            else None
        | EmptyString => None
        end
      else if qdtext c then option_map (fun vu => (String c vu.1, vu.2)) (quoted_rest r)
      else None
  end.

(** [PARAM_REGEXP] matched at the start of [s]: the lowercased key, the
    value, and the text after the match.  All its quantifiers are greedy
    and the alternatives are disjoint, so the match is unique. *)
Definition param_match (s : string) : option ((string * string) * string) :=
  match s with
  | String c r =>
      if Ascii.eqb c ";" then
        let (key, r2) := span_token (skip_spaces r) in
        if String.eqb key "" then None else
        match skip_spaces r2 with
        | String e r3 =>
            if Ascii.eqb e "=" then
              let r4 := skip_spaces r3 in
              match r4 with
              | String q r5 =>
                  if Ascii.eqb q dquote then
                    match quoted_rest r5 with
                    | Some (v, r6) => Some ((js_toLowerCase key, v), skip_spaces r6)
                    | None => None
                    end
                  else
                    let (v, r6) := span_token r4 in
                    if String.eqb v "" then None
                    else Some ((js_toLowerCase key, v), skip_spaces r6)
              | EmptyString => None
              end
            else None
        | EmptyString => None
        end
      else None
  | EmptyString => None
  end.

(** The [while ((match = PARAM_REGEXP.exec(header)))] loop from
    [lastIndex = index]: a match that does not start at [index], or no
    match before the end of the header, throws.  Every match consumes at
    least one character, so [fuel = length header] never runs out. *)
Fixpoint parse_params (fuel : nat) (s : string) : Exc (list (string * string)) :=
  match s with
  | EmptyString => Ret []
  | _ =>
      match fuel with
      | O => Throw "invalid parameter format"
      | S f =>
          match param_match s with
          | Some (kv, rest) => ps ← parse_params f rest; Ret (kv :: ps)
          | None => Throw "invalid parameter format"
          end
      end
  end.

(** [contentType.parse(string)] for a string argument. *)
Definition ct_parse (header : string) : Exc ContentType :=
  if String.eqb header "" then Throw "argument string is required" else
  let index := js_indexOf ";" header in
  let type := match index with
              | Some i => js_trim (js_slice header 0 (Some (Z.of_nat i)))
              | None => js_trim header
              end in
  if negb (type_regexp_test type) then Throw "invalid media type" else
  match index with
  | None => Ret (mkContentType (js_toLowerCase type) [])
  | Some i =>
      ps ← parse_params (String.length header) (js_slice header (Z.of_nat i) None);
      Ret (mkContentType (js_toLowerCase type) ps)
  end.

(** [contentType.format(obj)] for an [obj] whose [parameters] is [{}], the
    only way the module calls it: the parameter loop runs zero times. *)
Definition ct_format_type (type : string) : Exc string :=
  if String.eqb type "" || negb (type_regexp_test type) then Throw "invalid type"
  else Ret type.

(** ** [normalizeType] and [tryNormalizeType] (type-is.ts 255-279) *)

Definition normalizeType (value : string) : Exc string :=
  type ← ct_parse value;
  (* type.parameters = {} *)
  ct_format_type (ct_type type).

(** [value] is [string | null | undefined]; [None] is [null]/[undefined]. *)
Definition tryNormalizeType (value : option string) : option string :=
  match value with
  | None => None
  | Some v =>
      if String.eqb v "" then None
      else match normalizeType v with
           | Ret t => Some t
           | Throw _ => None
           end
  end.

(** ** Node's [path.extname] (posix) and the [mime-types] package *)

Record ExtScan := mkExtScan {
  startDot : Z;
  startPart : Z;
  endPos : Z;
  matchedSlash : bool;
  preDotState : Z
}.

Definition set_startDot (st : ExtScan) (v : Z) : ExtScan :=
  mkExtScan v st.(startPart) st.(endPos) st.(matchedSlash) st.(preDotState).
Definition set_startPart (st : ExtScan) (v : Z) : ExtScan :=
  mkExtScan st.(startDot) v st.(endPos) st.(matchedSlash) st.(preDotState).
Definition set_end (st : ExtScan) (v : Z) : ExtScan :=
  mkExtScan st.(startDot) st.(startPart) v false st.(preDotState).
Definition set_preDotState (st : ExtScan) (v : Z) : ExtScan :=
  mkExtScan st.(startDot) st.(startPart) st.(endPos) st.(matchedSlash) v.

(** The [for (let i = path.length - 1; i >= 0; --i)] loop of [extname];
    [cs] lists [path[i], path[i-1], ..., path[0]]. *)
Fixpoint extname_loop (cs : list ascii) (i : Z) (st : ExtScan) : ExtScan :=
  match cs with
  | [] => st
  | c :: rest =>
      if Ascii.eqb c "/" then
        if negb st.(matchedSlash) then set_startPart st (i + 1)
        else extname_loop rest (i - 1) st
      else
        let st1 := if Z.eqb st.(endPos) (-1) then set_end st (i + 1) else st in
        let st2 :=
          if Ascii.eqb c "." then
            if Z.eqb st1.(startDot) (-1) then set_startDot st1 i
            else if negb (Z.eqb st1.(preDotState) 1) then set_preDotState st1 1
            else st1
          else if negb (Z.eqb st1.(startDot) (-1)) then set_preDotState st1 (-1)
          else st1 in
        extname_loop rest (i - 1) st2
  end.

Definition path_extname (path : string) : string :=
  let st := extname_loop (rev (list_ascii_of_string path))
              (Z.of_nat (String.length path) - 1) (mkExtScan (-1) 0 (-1) true 0) in
  if Z.eqb st.(startDot) (-1) || Z.eqb st.(endPos) (-1) || Z.eqb st.(preDotState) 0 ||
     (Z.eqb st.(preDotState) 1 && Z.eqb st.(startDot) (st.(endPos) - 1) &&
      Z.eqb st.(startDot) (st.(startPart) + 1))
  then EmptyString
  else js_slice path st.(startDot) (Some st.(endPos)).

Section TypeIs.

(** [mime.types]: the extension -> media type registry of [mime-db]. *)
Variable types : string -> option string.

(** [mime.lookup(path)] for a string [path]; [None] is [false]. *)
Definition mime_lookup (path : string) : option string :=
  if String.eqb path "" then None else
  let extension := js_slice (js_toLowerCase (path_extname ("x." ++ path))) 1 None in
  if String.eqb extension "" then None else
  match types extension with
  | Some t => if String.eqb t "" then None else Some t
  | None => None
  end.

(** ** [normalize] (type-is.ts 168-187); [None] is [false].  It never
    returns [null], so [normalize(type) ?? false] is [normalize type]. *)
Definition normalize (type : JVal) : option string :=
  match type with
  | JStr t =>
      if String.eqb t "urlencoded" then Some "application/x-www-form-urlencoded"
      else if String.eqb t "multipart" then Some "multipart/*"
      else if js_at0_is t "+" then Some ("*/*" ++ t)
      else match js_indexOf "/" t with
           | None => mime_lookup t
           | Some _ => Some t
           end
  | _ => None
  end.

End TypeIs.

(** ** [mimeMatch] (type-is.ts 204-238); [expected = None] is [false]. *)
Definition mimeMatch (expected : option string) (actual : string) : bool :=
  match expected with
  | None => false
  | Some e =>
      match js_split "/" actual, js_split "/" e with
      | [a0; a1], [e0; e1] =>
          if negb (String.eqb e0 "*") && negb (String.eqb e0 a0) then false
          else if String.eqb (js_slice e1 0 (Some 2%Z)) "*+" then
            Nat.leb (String.length e1) (String.length a1 + 1) &&
            String.eqb (js_slice e1 1 None) (js_slice a1 (1 - Z.of_nat (String.length e1))%Z None)
          else if negb (String.eqb e1 "*") && negb (String.eqb e1 a1) then false
          else true
      | _, _ => false
      end
  end.

(** ** [Number(s)] is [NaN]: ECMAScript's StringToNumber grammar *)

Fixpoint span_while (p : ascii -> bool) (s : string) : string * string :=
  match s with
  | EmptyString => (EmptyString, EmptyString)
  | String c r =>
      if p c then let (t, u) := span_while p r in (String c t, u)
      else (EmptyString, s)
  end.

(** [ExponentPart] (optional) followed by the end of the literal. *)
Definition exponent_opt_end (s : string) : bool :=
  match s with
  | EmptyString => true
  | String e r =>
      (Ascii.eqb e "e" || Ascii.eqb e "E") &&
      let r' := match r with
                | String c r2 => if Ascii.eqb c "+" || Ascii.eqb c "-" then r2 else r
                | EmptyString => r
                end in
      let (d, u) := span_while is_digit r' in
      negb (String.eqb d "") && String.eqb u ""
  end.

(** [StrUnsignedDecimalLiteral]. *)
Definition unsigned_decimal (s : string) : bool :=
  String.eqb s "Infinity" ||
  let (d1, r1) := span_while is_digit s in
  if negb (String.eqb d1 "") then
    match r1 with
    | String c r2 =>
        if Ascii.eqb c "." then exponent_opt_end (span_while is_digit r2).2
        else exponent_opt_end r1
    | EmptyString => true
    end
  else
    match s with
    | String c r2 =>
        Ascii.eqb c "." &&
        let (d2, r3) := span_while is_digit r2 in
        negb (String.eqb d2 "") && exponent_opt_end r3
    | EmptyString => false
    end.

(** [StrDecimalLiteral]: an optional sign, then [StrUnsignedDecimalLiteral]. *)
Definition str_decimal (s : string) : bool :=
  match s with
  | String c r => if Ascii.eqb c "+" || Ascii.eqb c "-" then unsigned_decimal r else unsigned_decimal s
  | EmptyString => false
  end.

Definition is_hex (c : ascii) : bool := is_digit c || in_range 65 70 c || in_range 97 102 c.

(** [NonDecimalIntegerLiteral]: [0x], [0o] or [0b] and digits of that base. *)
Definition str_nondecimal (s : string) : bool :=
  match s with
  | String z (String x r) =>
      Ascii.eqb z "0" && negb (String.eqb r "") &&
      (((Ascii.eqb x "x" || Ascii.eqb x "X") && str_forallb is_hex r) ||
       ((Ascii.eqb x "o" || Ascii.eqb x "O") && str_forallb (in_range 48 55) r) ||
       ((Ascii.eqb x "b" || Ascii.eqb x "B") && str_forallb (in_range 48 49) r))
  | _ => false
  end.

(** [isNaN(Number(s))] for a string: surrounding whitespace is ignored and
    the empty (or all-whitespace) string is [0]. *)
Definition js_isNaN_string (s : string) : bool :=
  let t := js_trim s in
  if String.eqb t "" then false
  else negb (str_decimal t || str_nondecimal t).

(** [isNaN(v)] for [v : string | undefined]; [Number(undefined)] is [NaN]. *)
Definition js_isNaN (v : option string) : bool :=
  match v with
  | None => true
  | Some s => js_isNaN_string s
  end.

(** ** [hasBody] (type-is.ts 98-100).  A header map is a [gmap] from
    lowercase names to string values; a missing key is [undefined]. *)
Definition hasBody (headers : gmap string string) : bool :=
  negb (bool_decide (headers !! "transfer-encoding" = None)) ||
  negb (js_isNaN (headers !! "content-length")).

Section Decision.

Variable types : string -> option string.

(** [type[0] === '+' || type.indexOf('*') !== -1 ? actual : type] for the
    matching element [type].  On [null]/[undefined] the index throws; on
    booleans, numbers, functions and plain objects [type[0]] is
    [undefined] and calling the missing [indexOf] throws; an array has
    both. *)
Definition ret_expr (type : JVal) (actual : string) : Exc JVal :=
  match type with
  | JStr t =>
      Ret (if js_at0_is t "+" || bool_decide (js_indexOf "*" t <> None)
           then JStr actual else JStr t)
  | JUndefined | JNull => Throw "TypeError: Cannot read properties of undefined"
  | JArr l =>
      let first_plus := match l with JStr "+" :: _ => true | _ => false end in
      let has_star := existsb (fun v => match v with JStr "*" => true | _ => false end) l in
      Ret (if first_plus || has_star then JStr actual else type)
  | _ => Throw "TypeError: type.indexOf is not a function"
  end.

(** The [for] loop of [is] (type-is.ts 70-79). *)
Fixpoint is_loop (acceptable : list JVal) (actual : string) : Exc JVal :=
  match acceptable with
  | [] => Ret (JBool false)
  | type :: rest =>
      if mimeMatch (normalize types type) actual then ret_expr type actual
      else is_loop rest actual
  end.

(** "support flattened arguments": [args] are the call's arguments after
    the first; an array first argument is the list, otherwise the
    arguments themselves are. *)
Definition acceptable_of (args : list JVal) : list JVal :=
  match args with
  | JArr l :: _ => l
  | _ => args
  end.

(** ** [is] (type-is.ts 47-80): the result is a string or [false]. *)
Definition is (actual_ : option string) (args : list JVal) : Exc JVal :=
  match tryNormalizeType actual_ with
  | None => Ret (JBool false)
  | Some actual =>
      if String.eqb actual "" then Ret (JBool false) else
      match acceptable_of args with
      | [] => Ret (JStr actual)
      | acceptable => is_loop acceptable actual
      end
  end.

(** ** [typeIs] (type-is.ts 135-154): a string, [false] or [null]. *)
Definition typeIs (headers : gmap string string) (args : list JVal) : Exc JVal :=
  if negb (hasBody headers) then Ret JNull else
  let acceptable := acceptable_of args in
  let value := headers !! "content-type" in
  is value [JArr acceptable].

End Decision.

(** ** Spec-side vocabulary *)

(** Number of occurrences of [c] in [s]. *)
Fixpoint count_char (c : ascii) (s : string) : nat :=
  match s with
  | EmptyString => 0
  | String d r => (if Ascii.eqb d c then 1 else 0) + count_char c r
  end.

(** The text before the first [c] (all of [s] when there is none). *)
Fixpoint text_before (c : ascii) (s : string) : string :=
  match s with
  | EmptyString => EmptyString
  | String d r => if Ascii.eqb d c then EmptyString else String d (text_before c r)
  end.

Definition no_slash (s : string) : bool := str_forallb (fun c => negb (Ascii.eqb c "/")) s.

(** An excerpt of [mime-db]'s extension table, for concrete runs. *)
Definition mime_db_excerpt (ext : string) : option string :=
  if String.eqb ext "json" then Some "application/json"
  else if String.eqb ext "png" then Some "image/png"
  else if String.eqb ext "html" then Some "text/html"
  else if String.eqb ext "jpeg" then Some "image/jpeg"
  else if String.eqb ext "xml" then Some "application/xml"
  else None.

Definition headers_of (kvs : list (string * string)) : gmap string string :=
  list_to_map kvs.

(** A double quote inside a header value, as a one-character string. *)
Definition DQ : string := String dquote EmptyString.

(** Characters of a media type: token characters and ['/']. *)
Definition media_char (c : ascii) : bool := tchar c || Ascii.eqb c "/".

(** A header whose quoted parameter value holds a second ['/']. *)
Definition quoted_slash_header : string := "text/html; a=" ++ DQ ++ "b/c" ++ DQ.

Definition no_dot (s : string) : bool := str_forallb (fun c => negb (Ascii.eqb c ".")) s.

Definition no_star (s : string) : bool := negb (str_existsb (fun c => Ascii.eqb c "*") s).

(** What the registry [types] gives for a bare, already lowercased
    extension [e]: nothing for the empty extension or an empty entry. *)
Definition registry_value (types : string -> option string) (e : string) : option string :=
  if String.eqb e "" then None else
  match types e with
  | Some t => if String.eqb t "" then None else Some t
  | None => None
  end.

(** ** Runs of the test suite (src/unnamed/part_001) *)

Example run_is_params : is mime_db_excerpt (Some "text/html; charset=utf-8") [JArr [JStr "text/*"]] = Ret (JStr "text/html").
Proof. vm_compute. reflexivity. Qed.
Example run_is_case : is mime_db_excerpt (Some "text/HTML") [JStr "text/*"] = Ret (JStr "text/html").
Proof. vm_compute. reflexivity. Qed.
Example run_is_png : is mime_db_excerpt (Some "image/png") [JStr "png"] = Ret (JStr "png")
  /\ is mime_db_excerpt (Some "image/png") [JStr ".png"] = Ret (JStr ".png")
  /\ is mime_db_excerpt (Some "image/png") [JStr "*/png"] = Ret (JStr "image/png")
  /\ is mime_db_excerpt (Some "image/png") [JStr "jpeg"] = Ret (JBool false)
  /\ is mime_db_excerpt (Some "image/png") [JStr "bogus"] = Ret (JBool false)
  /\ is mime_db_excerpt (Some "image/png") [JStr "something/bogus*"] = Ret (JBool false)
  /\ is mime_db_excerpt (Some "text/html") [JStr "text/html/"] = Ret (JBool false)
  /\ is mime_db_excerpt (Some "text/html") [JArr [JUndefined; JNull; JBool true; JFun]] = Ret (JBool false).
Proof. vm_compute. repeat split. Qed.
Example run_is_suffix : is mime_db_excerpt (Some "application/vnd+json") [JStr "+json"] = Ret (JStr "application/vnd+json")
  /\ is mime_db_excerpt (Some "application/vnd+json") [JStr "application/*+json"] = Ret (JStr "application/vnd+json")
  /\ is mime_db_excerpt (Some "application/vnd+json") [JStr "*/vnd+json"] = Ret (JStr "application/vnd+json")
  /\ is mime_db_excerpt (Some "application/vnd+json") [JStr "text/*+json"] = Ret (JBool false)
  /\ is mime_db_excerpt (Some "bogus") [JStr "*/*"] = Ret (JBool false)
  /\ is mime_db_excerpt (Some "application/x-www-form-urlencoded") [JArr [JStr "json"; JStr "urlencoded"]] = Ret (JStr "urlencoded")
  /\ is mime_db_excerpt (Some "multipart/form-data") [JStr "multipart"] = Ret (JStr "multipart")
  /\ is mime_db_excerpt (Some "image/png") [JStr "image/png"; JStr "image/*"] = Ret (JStr "image/png").
Proof. vm_compute. repeat split. Qed.
Example run_hasBody : hasBody (headers_of [("content-length", "1")]) = true
  /\ hasBody (headers_of [("content-length", "0")]) = true
  /\ hasBody (headers_of [("content-length", "bogus")]) = false
  /\ hasBody (headers_of [("transfer-encoding", "chunked")]) = true
  /\ hasBody (headers_of []) = false.
Proof. vm_compute. repeat split. Qed.
Example run_typeIs : typeIs mime_db_excerpt (headers_of []) [JArr [JStr "image/*"]] = Ret JNull
  /\ typeIs mime_db_excerpt (headers_of [("transfer-encoding", "chunked")]) [JArr [JStr "image/*"]] = Ret (JBool false)
  /\ typeIs mime_db_excerpt (headers_of [("content-type", "application/vnd+json"); ("transfer-encoding", "chunked")]) [JStr "+json"] = Ret (JStr "application/vnd+json")
  /\ typeIs mime_db_excerpt (headers_of [("content-type", "text/html")]) [JStr "*/*"] = Ret JNull
  /\ typeIs mime_db_excerpt (headers_of [("content-type", "image/png"); ("transfer-encoding", "chunked")]) [] = Ret (JStr "image/png").
Proof. vm_compute. repeat split. Qed.
Example run_normalize : normalize mime_db_excerpt (JStr "json") = Some "application/json"
  /\ normalize mime_db_excerpt (JStr "+json") = Some "*/*+json"
  /\ normalize mime_db_excerpt (JStr "unknown") = None
  /\ normalize mime_db_excerpt JObj = None
  /\ mimeMatch (Some "*/*+xml") "text/html+xml" = true
  /\ mimeMatch (Some "*/*+xml") "text/html" = false
  /\ mimeMatch (Some "text/html") "text/html+xml" = false.
Proof. vm_compute. repeat split. Qed.

(** * Proofs *)

(** ** Strings *)

Lemma js_split_nonempty (c : ascii) (s : string) : js_split c s <> [].
Proof.
  induction s as [|d r IH]; simpl; [discriminate|].
  destruct (Ascii.eqb d c); [discriminate|].
  destruct (js_split c r); discriminate.
Qed.

Lemma count_char_split (c : ascii) (s : string) :
  S (count_char c s) = length (js_split c s).
Proof.
  induction s as [|d r IH]; simpl; [reflexivity|].
  destruct (Ascii.eqb d c) eqn:E; simpl; [congruence|].
  pose proof (js_split_nonempty c r) as Hne.
  destruct (js_split c r); [congruence|]. simpl in *. exact IH.
Qed.

(** A predicate that the separator fails distributes over the pieces. *)
Lemma existsb_split (p : ascii -> bool) (c : ascii) (s : string) :
  p c = false -> str_existsb p s = existsb (str_existsb p) (js_split c s).
Proof.
  intros Hc. induction s as [|d r IH]; simpl; [reflexivity|].
  destruct (Ascii.eqb d c) eqn:E.
  - apply Ascii.eqb_eq in E. subst d. rewrite Hc, IH. reflexivity.
  - pose proof (js_split_nonempty c r) as Hne.
    destruct (js_split c r) as [|x xs]; [congruence|]. simpl in *.
    rewrite IH. apply orb_assoc.
Qed.

Lemma no_slash_split (x y : string) :
  no_slash x = true -> js_split "/" (x ++ String "/" y) = x :: js_split "/" y.
Proof.
  induction x as [|d r IH]; simpl; intros H.
  - reflexivity.
  - apply andb_prop in H as [Hd Hr]. apply negb_true_iff in Hd.
    rewrite Hd, IH by exact Hr. reflexivity.
Qed.

Lemma no_slash_split_single (x : string) : no_slash x = true -> js_split "/" x = [x].
Proof.
  induction x as [|d r IH]; simpl; intros H; [reflexivity|].
  apply andb_prop in H as [Hd Hr]. apply negb_true_iff in Hd.
  rewrite Hd, IH by exact Hr. reflexivity.
Qed.

Lemma existsb_substring (p : ascii -> bool) (n m : nat) (s : string) :
  str_existsb p (substring n m s) = true -> str_existsb p s = true.
Proof.
  revert n m. induction s as [|d r IH]; intros n m H.
  - destruct n, m; discriminate.
  - destruct n as [|n]; simpl in *.
    + destruct m as [|m]; simpl in H; [discriminate|].
      apply orb_true_iff in H as [H|H].
      * rewrite H. reflexivity.
      * rewrite (IH 0 m H). apply orb_true_r.
    + rewrite (IH n m H). apply orb_true_r.
Qed.

Lemma substring_all (s : string) : substring 0 (String.length s) s = s.
Proof. induction s as [|d r IH]; simpl; congruence. Qed.

Lemma js_lower_char_upper (c : ascii) : is_upper (js_lower_char c) = false.
Proof. destruct c as [[] [] [] [] [] [] [] []]; reflexivity. Qed.

Lemma js_lower_char_idem (c : ascii) : js_lower_char (js_lower_char c) = js_lower_char c.
Proof. destruct c as [[] [] [] [] [] [] [] []]; reflexivity. Qed.

Lemma js_toLowerCase_no_upper (s : string) : str_existsb is_upper (js_toLowerCase s) = false.
Proof.
  unfold js_toLowerCase. induction s as [|d r IH]; simpl; [reflexivity|].
  rewrite js_lower_char_upper. exact IH.
Qed.

Lemma js_toLowerCase_idem (s : string) :
  js_toLowerCase (js_toLowerCase s) = js_toLowerCase s.
Proof.
  unfold js_toLowerCase. induction s as [|d r IH]; simpl; [reflexivity|].
  rewrite js_lower_char_idem, IH. reflexivity.
Qed.

Lemma forallb_split (q : ascii -> bool) (c : ascii) (s : string) :
  q c = true -> str_forallb q s = forallb (str_forallb q) (js_split c s).
Proof.
  intros Hc. induction s as [|d r IH]; simpl; [reflexivity|].
  destruct (Ascii.eqb d c) eqn:E.
  - apply Ascii.eqb_eq in E. subst d. rewrite Hc, IH. reflexivity.
  - pose proof (js_split_nonempty c r) as Hne.
    destruct (js_split c r) as [|x xs]; [congruence|]. simpl in *.
    rewrite IH. apply andb_assoc.
Qed.

Lemma str_forallb_impl (p q : ascii -> bool) (s : string) :
  (forall c, p c = true -> q c = true) -> str_forallb p s = true -> str_forallb q s = true.
Proof.
  intros Hpq. induction s as [|d r IH]; simpl; [reflexivity|].
  intros H. apply andb_prop in H as [Hd Hr]. rewrite (Hpq d Hd). exact (IH Hr).
Qed.

Lemma type_regexp_chars (s : string) :
  type_regexp_test s = true -> str_forallb media_char s = true.
Proof.
  unfold type_regexp_test. intros H.
  rewrite (forallb_split media_char "/") by reflexivity.
  destruct (js_split "/" s) as [|a [|b [|x l]]]; try discriminate.
  apply andb_prop in H as [Ha Hb]. unfold token_test in Ha, Hb.
  apply andb_prop in Ha as [_ Ha]. apply andb_prop in Hb as [_ Hb].
  assert (Himp : forall c, tchar c = true -> media_char c = true)
    by (intros c Hc; unfold media_char; rewrite Hc; reflexivity).
  simpl. rewrite (str_forallb_impl _ _ a Himp Ha), (str_forallb_impl _ _ b Himp Hb).
  reflexivity.
Qed.

Lemma type_regexp_count (s : string) : type_regexp_test s = true -> count_char "/" s = 1.
Proof.
  unfold type_regexp_test. intros H. pose proof (count_char_split "/" s) as Hc.
  destruct (js_split "/" s) as [|a [|b [|x l]]]; try discriminate.
  simpl in Hc. lia.
Qed.

(** Media-type characters are neither whitespace nor [';']. *)
Lemma media_char_not_ws (c : ascii) : media_char c && (js_ws c || Ascii.eqb c ";") = false.
Proof. destruct c as [[] [] [] [] [] [] [] []]; reflexivity. Qed.

Lemma js_trim_id (s : string) : str_forallb media_char s = true -> js_trim s = s.
Proof.
  intros H. unfold js_trim.
  assert (Hs : js_trimStart s = s).
  { destruct s as [|c r]; simpl; [reflexivity|].
    simpl in H. apply andb_prop in H as [Hc _].
    pose proof (media_char_not_ws c) as Hn. rewrite Hc in Hn. simpl in Hn.
    apply orb_false_iff in Hn as [Hw _]. rewrite Hw. reflexivity. }
  rewrite Hs. clear Hs. induction s as [|c r IH]; simpl; [reflexivity|].
  simpl in H. apply andb_prop in H as [Hc Hr].
  pose proof (media_char_not_ws c) as Hn. rewrite Hc in Hn. simpl in Hn.
  apply orb_false_iff in Hn as [Hw _]. rewrite IH by exact Hr. rewrite Hw. reflexivity.
Qed.

Lemma js_indexOf_semicolon_none (s : string) :
  str_forallb media_char s = true -> js_indexOf ";" s = None.
Proof.
  induction s as [|c r IH]; simpl; [reflexivity|].
  intros H. apply andb_prop in H as [Hc Hr].
  pose proof (media_char_not_ws c) as Hn. rewrite Hc in Hn. simpl in Hn.
  apply orb_false_iff in Hn as [_ Hs]. rewrite Hs, IH by exact Hr. reflexivity.
Qed.

Lemma count_slash_trim (s : string) : count_char "/" (js_trim s) = count_char "/" s.
Proof.
  assert (Hws : forall c, js_ws c = true -> Ascii.eqb c "/" = false)
    by (intros c; destruct c as [[] [] [] [] [] [] [] []]; first [discriminate | reflexivity]).
  unfold js_trim.
  assert (Hend : forall t, count_char "/" (js_trimEnd t) = count_char "/" t).
  { induction t as [|c r IH]; simpl; [reflexivity|].
    destruct (js_ws c) eqn:Ew; simpl.
    - destruct (String.eqb (js_trimEnd r) "") eqn:Ee; simpl.
      + apply String.eqb_eq in Ee. rewrite Ee in IH. simpl in IH.
        rewrite (Hws c Ew). simpl. lia.
      + rewrite IH. reflexivity.
    - rewrite IH. reflexivity. }
  rewrite Hend. induction s as [|c r IH]; simpl; [reflexivity|].
  destruct (js_ws c) eqn:Ew; [|reflexivity].
  rewrite IH, (Hws c Ew). reflexivity.
Qed.

(** ** The content-type parser *)

Lemma js_indexOf_some (c : ascii) (s : string) (i : nat) :
  js_indexOf c s = Some i -> i < String.length s /\ substring 0 i s = text_before c s.
Proof.
  revert i. induction s as [|d r IH]; intros i H; simpl in *; [discriminate|].
  destruct (Ascii.eqb d c) eqn:E.
  - injection H as <-. split; [lia | reflexivity].
  - destruct (js_indexOf c r) as [j|] eqn:Ej; simpl in H; [|discriminate].
    injection H as <-. destruct (IH j eq_refl) as [Hl Hs]. split; [lia|].
    simpl. rewrite Hs. reflexivity.
Qed.

Lemma js_indexOf_none (c : ascii) (s : string) :
  js_indexOf c s = None -> text_before c s = s.
Proof.
  induction s as [|d r IH]; simpl; [reflexivity|].
  destruct (Ascii.eqb d c); [discriminate|].
  destruct (js_indexOf c r); simpl; [discriminate|].
  intros _. rewrite IH by reflexivity. reflexivity.
Qed.

Lemma js_slice_prefix (s : string) (i : nat) :
  i <= String.length s -> js_slice s 0 (Some (Z.of_nat i)) = substring 0 i s.
Proof.
  intros Hi. unfold js_slice, js_rel. simpl.
  destruct (Z.of_nat i <? 0)%Z eqn:E; [apply Z.ltb_lt in E; lia|].
  rewrite (Z.min_l (Z.of_nat i)), (Z.min_l 0) by lia. rewrite Nat2Z.id. simpl. rewrite Nat.sub_0_r. reflexivity.
Qed.

(** The media-type part that [parse] validates is the text before the
    first [';'], trimmed. *)
Lemma ct_parse_type_part (header : string) :
  match js_indexOf ";" header with
  | Some i => js_trim (js_slice header 0 (Some (Z.of_nat i)))
  | None => js_trim header
  end = js_trim (text_before ";" header).
Proof.
  destruct (js_indexOf ";" header) as [i|] eqn:E.
  - destruct (js_indexOf_some _ _ _ E) as [Hl Hs].
    rewrite js_slice_prefix by lia. rewrite Hs. reflexivity.
  - rewrite (js_indexOf_none _ _ E). reflexivity.
Qed.

Lemma ct_parse_Ret (v : string) (obj : ContentType) :
  ct_parse v = Ret obj ->
  ct_type obj = js_toLowerCase (js_trim (text_before ";" v)) /\
  type_regexp_test (js_trim (text_before ";" v)) = true.
Proof.
  unfold ct_parse. rewrite ct_parse_type_part.
  destruct (String.eqb v ""); [discriminate|].
  destruct (type_regexp_test (js_trim (text_before ";" v))) eqn:Et; simpl; [|discriminate].
  destruct (js_indexOf ";" v).
  - destruct (parse_params _ _); simpl; [|discriminate].
    intros H. injection H as <-. split; reflexivity.
  - intros H. injection H as <-. split; reflexivity.
Qed.

Lemma normalizeType_Ret (v a : string) :
  normalizeType v = Ret a ->
  a = js_toLowerCase (js_trim (text_before ";" v)) /\
  type_regexp_test (js_trim (text_before ";" v)) = true /\
  type_regexp_test a = true /\ a <> "".
Proof.
  unfold normalizeType. destruct (ct_parse v) as [obj|e] eqn:Ep; simpl; [|discriminate].
  destruct (ct_parse_Ret v obj Ep) as [Ht Hr].
  unfold ct_format_type.
  destruct (String.eqb (ct_type obj) "") eqn:E1; simpl; [discriminate|].
  destruct (type_regexp_test (ct_type obj)) eqn:E2; simpl; [|discriminate].
  intros H. injection H as <-. apply String.eqb_neq in E1.
  repeat split; assumption.
Qed.

Lemma tryNormalizeType_Some (raw : option string) (a : string) :
  tryNormalizeType raw = Some a ->
  exists v, raw = Some v /\ normalizeType v = Ret a.
Proof.
  unfold tryNormalizeType. destruct raw as [v|]; [|discriminate].
  destruct (String.eqb v ""); [discriminate|].
  destruct (normalizeType v) as [t|e] eqn:En; [|discriminate].
  intros H. injection H as <-. exists v. split; [reflexivity | exact En].
Qed.

(** ** Claims about normalization *)

Section Claims.

Variable types : string -> option string.

(** C8: for every header value that [normalizeType] accepts (any casing,
    any parameters), its output is accepted again and normalizes to
    itself; it carries no parameters (parsing it yields an empty
    parameter list and it contains no [';']). *)
Theorem normalizeType_idempotent (v out : string) :
  normalizeType v = Ret out ->
  normalizeType out = Ret out /\
  ct_parse out = Ret (mkContentType out []) /\
  js_indexOf ";" out = None.
Proof.
  intros H. destruct (normalizeType_Ret v out H) as (Hout & _ & Htest & Hne).
  pose proof (type_regexp_chars out Htest) as Hc.
  pose proof (js_indexOf_semicolon_none out Hc) as Hsemi.
  apply String.eqb_neq in Hne.
  assert (Hp : ct_parse out = Ret (mkContentType out [])).
  { unfold ct_parse. rewrite Hne, Hsemi, (js_trim_id out Hc), Htest. simpl.
    rewrite Hout, js_toLowerCase_idem. reflexivity. }
  split; [|split; [exact Hp | exact Hsemi]].
  unfold normalizeType. rewrite Hp. simpl. unfold ct_format_type.
  rewrite Hne, Htest. reflexivity.
Qed.

(** C2 (amended): whatever the arguments, [is] returns [false] when the
    actual value is [null]/[undefined], empty, or rejected by
    normalization; a value whose text before the first [';'] does not
    hold exactly one ['/'] is rejected; with no patterns (no argument or
    an empty array) [is] returns the normalized value, which is the
    trimmed text before the first [';'] in lower case. *)
Theorem is_actual_invalid_or_bare (raw : option string) (args : list JVal) :
  (tryNormalizeType raw = None -> is types raw args = Ret (JBool false)) /\
  (forall v, count_char "/" (text_before ";" v) <> 1 -> tryNormalizeType (Some v) = None) /\
  (forall a, tryNormalizeType raw = Some a -> acceptable_of args = [] ->
             is types raw args = Ret (JStr a)) /\
  (forall v a, tryNormalizeType (Some v) = Some a ->
               a = js_toLowerCase (js_trim (text_before ";" v))) /\
  tryNormalizeType None = None /\ tryNormalizeType (Some "") = None.
Proof.
  split; [|split; [|split; [|split; [|split]]]].
  - intros H. unfold is. rewrite H. reflexivity.
  - intros v Hv. destruct (tryNormalizeType (Some v)) as [a|] eqn:E; [|reflexivity].
    exfalso. apply Hv.
    destruct (tryNormalizeType_Some _ _ E) as (v' & Hv' & Hn). injection Hv' as <-.
    destruct (normalizeType_Ret v a Hn) as (_ & Ht & _).
    rewrite <- count_slash_trim. exact (type_regexp_count _ Ht).
  - intros a H Hargs. unfold is. rewrite H.
    destruct (tryNormalizeType_Some _ _ H) as (v & _ & Hn).
    destruct (normalizeType_Ret v a Hn) as (_ & _ & _ & Hne).
    apply String.eqb_neq in Hne. rewrite Hne, Hargs. reflexivity.
  - intros v a H. destruct (tryNormalizeType_Some _ _ H) as (v' & Hv' & Hn).
    injection Hv' as <-. exact (proj1 (normalizeType_Ret v a Hn)).
  - reflexivity.
  - reflexivity.
Qed.

End Claims.

(** ** The decision loop *)

Section Loop.

Variable types : string -> option string.

Lemma normalize_non_string (v : JVal) :
  (forall s, v <> JStr s) -> normalize types v = None.
Proof. intros H. destruct v; try reflexivity. exfalso. exact (H s eq_refl). Qed.

Lemma match_is_string (v : JVal) (a : string) :
  mimeMatch (normalize types v) a = true -> exists t, v = JStr t.
Proof. destruct v; simpl; try discriminate. intros _. eexists. reflexivity. Qed.

Lemma is_loop_first (pre post : list JVal) (p : JVal) (a : string) :
  Forall (fun q => mimeMatch (normalize types q) a = false) pre ->
  mimeMatch (normalize types p) a = true ->
  is_loop types (pre ++ p :: post) a = ret_expr p a.
Proof.
  intros Hpre Hp. induction Hpre as [|q pre Hq _ IH]; simpl.
  - rewrite Hp. reflexivity.
  - rewrite Hq. exact IH.
Qed.

Lemma is_loop_result (l : list JVal) (a : string) :
  exists r, is_loop types l a = Ret r /\ (r = JBool false \/ exists s, r = JStr s).
Proof.
  induction l as [|p rest IH]; simpl.
  - exists (JBool false). split; [reflexivity | left; reflexivity].
  - destruct (mimeMatch (normalize types p) a) eqn:Hm; [|exact IH].
    destruct (match_is_string p a Hm) as [t ->]. simpl.
    eexists. split; [reflexivity|]. right.
    destruct (js_at0_is t "+" || _); eexists; reflexivity.
Qed.

Lemma tryNormalizeType_nonempty (raw : option string) (a : string) :
  tryNormalizeType raw = Some a -> String.eqb a "" = false.
Proof.
  intros H. destruct (tryNormalizeType_Some _ _ H) as (v & _ & Hn).
  destruct (normalizeType_Ret v a Hn) as (_ & _ & _ & Hne).
  apply String.eqb_neq. exact Hne.
Qed.

Lemma is_array_nonempty (raw : option string) (a : string) (l : list JVal) :
  tryNormalizeType raw = Some a -> l <> [] -> is types raw [JArr l] = is_loop types l a.
Proof.
  intros H Hl. unfold is. rewrite H, (tryNormalizeType_nonempty raw a H).
  destruct l; [contradiction | reflexivity].
Qed.

Lemma js_indexOf_exists (c : ascii) (t : string) :
  bool_decide (js_indexOf c t <> None) = str_existsb (fun d => Ascii.eqb d c) t.
Proof.
  induction t as [|d r IH]; simpl; [reflexivity|].
  destruct (Ascii.eqb d c); simpl; [reflexivity|].
  rewrite <- IH. destruct (js_indexOf c r); reflexivity.
Qed.

Lemma js_at0_prefix (t : string) : js_at0_is t "+" = String.prefix "+" t.
Proof.
  destruct t as [|d r]; [reflexivity|].
  change (String.prefix "+" (String d r)) with
    (if ascii_dec "+" d then String.prefix "" r else false).
  unfold js_at0_is.
  destruct (ascii_dec "+" d) as [<-|Hne]; [destruct r; reflexivity|].
  apply Ascii.eqb_neq. congruence.
Qed.

(** C3: for a valid actual value and a pattern list whose first matching
    element is the string [t], [is] returns the normalized actual type
    when [t] starts with ['+'] or contains a ['*'], and [t] itself
    otherwise. *)
Theorem is_first_match_result (raw : option string) (a : string)
    (pre post : list JVal) (t : string) :
  tryNormalizeType raw = Some a ->
  Forall (fun q => mimeMatch (normalize types q) a = false) pre ->
  mimeMatch (normalize types (JStr t)) a = true ->
  is types raw [JArr (pre ++ JStr t :: post)] =
  Ret (JStr (if String.prefix "+" t || str_existsb (fun c => Ascii.eqb c "*") t
             then a else t)).
Proof.
  intros Ha Hpre Hm.
  rewrite (is_array_nonempty raw a) by (exact Ha || (destruct pre; discriminate)).
  rewrite (is_loop_first pre post (JStr t) a Hpre Hm). simpl.
  rewrite js_at0_prefix, js_indexOf_exists.
  destruct (String.prefix "+" t || str_existsb (fun c => Ascii.eqb c "*") t); reflexivity.
Qed.

(** C4: first match wins: with a valid actual value, when [p] matches and
    no earlier pattern does, [is] returns what it returns for [[p]] alone,
    whatever follows [p]. *)
Theorem is_first_match_wins (raw : option string) (a : string)
    (pre post post' : list JVal) (p : JVal) :
  tryNormalizeType raw = Some a ->
  Forall (fun q => mimeMatch (normalize types q) a = false) pre ->
  mimeMatch (normalize types p) a = true ->
  is types raw [JArr (pre ++ p :: post)] = is types raw [JArr [p]] /\
  is types raw [JArr (pre ++ p :: post)] = is types raw [JArr (pre ++ p :: post')].
Proof.
  intros Ha Hpre Hm.
  rewrite !(is_array_nonempty raw a) by (exact Ha || (destruct pre; discriminate)).
  rewrite (is_loop_first pre post p a Hpre Hm), (is_loop_first pre post' p a Hpre Hm).
  replace (is_loop types [p] a) with (ret_expr p a) by (simpl; rewrite Hm; reflexivity).
  split; reflexivity.
Qed.

(** [is] always returns, and only a string or [false]. *)
Lemma is_ret_bool_or_string (raw : option string) (args : list JVal) :
  exists r, is types raw args = Ret r /\ (r = JBool false \/ exists s, r = JStr s).
Proof.
  unfold is.
  destruct (tryNormalizeType raw) as [a|];
    [|exists (JBool false); split; [reflexivity | left; reflexivity]].
  destruct (String.eqb a ""); [exists (JBool false); split; [reflexivity | left; reflexivity]|].
  destruct (acceptable_of args) as [|p rest];
    [exists (JStr a); split; [reflexivity | right; eexists; reflexivity]|].
  apply is_loop_result.
Qed.

(** C7: [is] and [typeIs] never throw, whatever the arguments: [is]
    returns a string or [false], [typeIs] a string, [false] or [null]; a
    non-string pattern normalizes to [false] and never matches; a value
    the content-type parser rejects makes [is] return [false]. *)
Theorem is_typeIs_never_throw :
  (forall raw args, exists r, is types raw args = Ret r /\
                              (r = JBool false \/ exists s, r = JStr s)) /\
  (forall h args, exists r, typeIs types h args = Ret r /\
                            (r = JNull \/ r = JBool false \/ exists s, r = JStr s)) /\
  (forall v, (forall s, v <> JStr s) ->
             normalize types v = None /\ forall a, mimeMatch (normalize types v) a = false) /\
  (forall v e args, normalizeType v = Throw e -> is types (Some v) args = Ret (JBool false)).
Proof.
  pose proof is_ret_bool_or_string as His.
  split; [exact His|split; [|split]].
  - intros h args. unfold typeIs. destruct (hasBody h); simpl.
    + destruct (His (h !! "content-type") [JArr (acceptable_of args)]) as (r & Hr & Hk).
      exists r. split; [exact Hr | right; exact Hk].
    + exists JNull. split; [reflexivity | left; reflexivity].
  - intros v Hv. rewrite (normalize_non_string v Hv). split; reflexivity.
  - intros v e args Hv. unfold is, tryNormalizeType.
    destruct (String.eqb v ""); [reflexivity|]. rewrite Hv. reflexivity.
Qed.

(** C1: [typeIs] returns [null] when [hasBody] is false, and otherwise
    exactly what [is] returns on the [content-type] value (possibly
    absent) and the same arguments; when there is no body neither the
    content type nor the patterns matter; since [is] never returns
    [null], [typeIs] returns [null] exactly when [hasBody] is false. *)
Theorem typeIs_decomposition (h : gmap string string) (args : list JVal) :
  typeIs types h args =
    (if hasBody h then is types (h !! "content-type") args else Ret JNull) /\
  (typeIs types h args = Ret JNull <-> hasBody h = false) /\
  (hasBody h = false ->
   forall ct args', typeIs types (<["content-type" := ct]> h) args' = Ret JNull).
Proof.
  split; [|split].
  - unfold typeIs. destruct (hasBody h); reflexivity.
  - unfold typeIs. destruct (hasBody h); [|split; reflexivity].
    split; [|discriminate].
    destruct (is_ret_bool_or_string (h !! "content-type") [JArr (acceptable_of args)])
      as (r & Hr & [-> | [s' ->]]); rewrite Hr; discriminate.
  - intros Hb ct args'. unfold typeIs.
    assert (Hb' : hasBody (<["content-type" := ct]> h) = hasBody h).
    { unfold hasBody. rewrite !lookup_insert_ne by discriminate. reflexivity. }
    rewrite Hb', Hb. reflexivity.
Qed.

End Loop.

(** ** The wildcard matcher *)

Lemma js_slice_from1 (c : ascii) (r : string) : js_slice (String c r) 1 None = r.
Proof.
  unfold js_slice, js_rel. simpl String.length.
  replace ((1 <? 0)%Z) with false by reflexivity.
  rewrite Z.min_l by lia. simpl. rewrite Nat.sub_0_r. apply substring_all.
Qed.

Lemma js_slice_neg_suffix (s : string) (L : nat) :
  2 <= L -> L <= String.length s + 1 ->
  js_slice s (1 - Z.of_nat L)%Z None =
  substring (String.length s - (L - 1)) (L - 1) s.
Proof.
  intros H2 HL. unfold js_slice, js_rel.
  destruct ((1 - Z.of_nat L <? 0)%Z) eqn:E; [|apply Z.ltb_ge in E; lia].
  rewrite Z.max_l by lia.
  replace (Z.to_nat (Z.of_nat (String.length s) + (1 - Z.of_nat L)))
    with (String.length s - (L - 1)) by lia.
  f_equal. lia.
Qed.

Lemma js_slice_head2 (s : string) :
  js_slice s 0 (Some 2%Z) = "*+" -> exists r, s = String "*" (String "+" r).
Proof.
  destruct s as [|c1 [|c2 r]]; [discriminate | discriminate |].
  change 2%Z with (Z.of_nat 2). rewrite js_slice_prefix by (simpl; lia). simpl.
  intros H. injection H as -> ->. exists r. reflexivity.
Qed.

Lemma prefix_star_plus (s : string) :
  String.prefix "*+" s = true -> exists r, s = String "*" (String "+" r).
Proof.
  destruct s as [|c1 [|c2 r]]; [discriminate| |].
  - change (String.prefix "*+" (String c1 EmptyString)) with
      (if ascii_dec "*" c1 then String.prefix "+" EmptyString else false).
    destruct (ascii_dec "*" c1); discriminate.
  - change (String.prefix "*+" (String c1 (String c2 r))) with
      (if ascii_dec "*" c1 then
         (if ascii_dec "+" c2 then String.prefix "" r else false) else false).
    destruct (ascii_dec "*" c1) as [<-|]; [|discriminate].
    destruct (ascii_dec "+" c2) as [<-|]; [|discriminate].
    intros _. exists r. reflexivity.
Qed.

Lemma eqb_upper_false (x y : string) :
  str_existsb is_upper x = true -> str_existsb is_upper y = false -> String.eqb x y = false.
Proof.
  intros Hx Hy. apply String.eqb_neq. intros ->. congruence.
Qed.

(** A pattern holding an uppercase ASCII letter never matches a media type
    without one. *)
Lemma mimeMatch_upper (e a : string) :
  str_existsb is_upper e = true -> str_existsb is_upper a = false ->
  mimeMatch (Some e) a = false.
Proof.
  intros He Ha. unfold mimeMatch.
  rewrite (existsb_split is_upper "/") in He, Ha by reflexivity.
  destruct (js_split "/" a) as [|a0 [|a1 [|x xs]]]; try reflexivity.
  destruct (js_split "/" e) as [|e0 [|e1 [|y ys]]]; try reflexivity.
  simpl in He, Ha. rewrite orb_false_r in He, Ha.
  apply orb_false_iff in Ha as [Ha0 Ha1].
  destruct (str_existsb is_upper e0) eqn:He0.
  - rewrite (eqb_upper_false e0 "*") by (assumption || reflexivity).
    rewrite (eqb_upper_false e0 a0) by assumption. reflexivity.
  - simpl in He.
    destruct (negb (String.eqb e0 "*") && negb (String.eqb e0 a0)); [reflexivity|].
    destruct (String.eqb (js_slice e1 0 (Some 2%Z)) "*+") eqn:Hs.
    + apply String.eqb_eq, js_slice_head2 in Hs as [r ->].
      rewrite js_slice_from1.
      assert (Hr : str_existsb is_upper (String "+" r) = true) by exact He.
      rewrite (eqb_upper_false (String "+" r)); [apply andb_false_r | exact Hr |].
      destruct (str_existsb is_upper (js_slice a1 _ None)) eqn:Hsl; [|reflexivity].
      unfold js_slice in Hsl. apply existsb_substring in Hsl. congruence.
    + rewrite (eqb_upper_false e1 "*") by (assumption || reflexivity).
      rewrite (eqb_upper_false e1 a1) by assumption. reflexivity.
Qed.

Lemma no_slash_app_split (x y : string) :
  no_slash x = true -> no_slash y = true -> js_split "/" (x ++ "/" ++ y) = [x; y].
Proof.
  intros Hx Hy. change ("/" ++ y) with (String "/" y).
  rewrite (no_slash_split x y Hx), (no_slash_split_single y Hy). reflexivity.
Qed.

Section Matcher.

Variable types : string -> option string.

(** C5: for a two-segment pattern [pt/ps] whose subtype starts with
    ["*+"] and a two-segment media type [at/as], [mimeMatch] holds iff the
    type segment matches ([pt] is ["*"] or equals [at]) and, with
    [L = len(ps)], [L <= len(as) + 1] and [ps[1:]] equals the last [L-1]
    characters of [as].  In particular [*/*+xml] matches [text/html+xml]
    and not [text/html]. *)
Theorem mimeMatch_suffix_wildcard (pt ps at_ as_ : string) :
  no_slash pt = true -> no_slash ps = true ->
  no_slash at_ = true -> no_slash as_ = true ->
  String.prefix "*+" ps = true ->
  (mimeMatch (Some (pt ++ "/" ++ ps)) (at_ ++ "/" ++ as_) = true <->
   (pt = "*" \/ pt = at_) /\
   String.length ps <= String.length as_ + 1 /\
   substring 1 (String.length ps - 1) ps =
   substring (String.length as_ - (String.length ps - 1)) (String.length ps - 1) as_) /\
  mimeMatch (Some "*/*+xml") "text/html+xml" = true /\
  mimeMatch (Some "*/*+xml") "text/html" = false.
Proof.
  intros Hpt Hps Hat Has Hpre.
  split; [|split; reflexivity].
  unfold mimeMatch. rewrite !no_slash_app_split by assumption.
  destruct (prefix_star_plus ps Hpre) as [r ->].
  replace (js_slice (String "*" (String "+" r)) 0 (Some 2%Z)) with "*+"
    by (change 2%Z with (Z.of_nat 2); rewrite js_slice_prefix by (simpl; lia); destruct r; reflexivity).
  rewrite js_slice_from1. simpl String.eqb at 1.
  replace (substring 1 (String.length (String "*" (String "+" r)) - 1) (String "*" (String "+" r)))
    with (String "+" r) by (simpl; rewrite substring_all; reflexivity).
  set (L := String.length (String "*" (String "+" r))).
  assert (HL : 2 <= L) by (unfold L; simpl; lia).
  split.
  - destruct (negb (String.eqb pt "*") && negb (String.eqb pt at_)) eqn:Ht; [discriminate|].
    intros H. apply andb_prop in H as [H1 H2].
    apply Nat.leb_le in H1. apply String.eqb_eq in H2.
    rewrite js_slice_neg_suffix in H2 by lia.
    split; [|split; [exact H1 | exact H2]].
    apply andb_false_iff in Ht as [Ht|Ht]; apply negb_false_iff, String.eqb_eq in Ht; auto.
  - intros (Ht & H1 & H2).
    replace (negb (String.eqb pt "*") && negb (String.eqb pt at_)) with false
      by (destruct Ht as [->| ->]; rewrite String.eqb_refl; [reflexivity | symmetry; apply andb_false_r]).
    rewrite js_slice_neg_suffix by lia. rewrite <- H2.
    apply andb_true_intro. split; [apply Nat.leb_le; exact H1 | apply String.eqb_refl].
Qed.

(** C9: a pattern containing ['/'] is kept as written and compared
    case-sensitively with the lowercased actual type, so one holding an
    uppercase ASCII letter never matches: [is] returns [false] for a list
    holding only it, whatever the actual value.  A bare uppercase
    extension such as ['JSON'] still matches, since the registry lookup
    lowercases it. *)
Theorem is_uppercase_slash_pattern (raw : option string) (t : string) :
  js_indexOf "/" t <> None -> str_existsb is_upper t = true ->
  is types raw [JArr [JStr t]] = Ret (JBool false) /\
  is mime_db_excerpt (Some "application/json") [JArr [JStr "JSON"]] = Ret (JStr "JSON").
Proof.
  intros Hslash Hup. split; [|vm_compute; reflexivity].
  unfold is. destruct (tryNormalizeType raw) as [a|] eqn:Ha; [|reflexivity].
  rewrite (tryNormalizeType_nonempty raw a Ha).
  destruct (tryNormalizeType_Some _ _ Ha) as (v & _ & Hn).
  destruct (normalizeType_Ret v a Hn) as (Hlow & _).
  assert (Hna : str_existsb is_upper a = false)
    by (rewrite Hlow; apply js_toLowerCase_no_upper).
  assert (Hm : mimeMatch (normalize types (JStr t)) a = false).
  { unfold normalize.
    destruct (String.eqb t "urlencoded") eqn:E1;
      [apply String.eqb_eq in E1; subst t; vm_compute in Hslash; congruence|].
    destruct (String.eqb t "multipart") eqn:E2;
      [apply String.eqb_eq in E2; subst t; vm_compute in Hslash; congruence|].
    destruct (js_at0_is t "+").
    - apply mimeMatch_upper; [exact Hup | exact Hna].
    - destruct (js_indexOf "/" t); [|congruence].
      apply mimeMatch_upper; assumption. }
  cbn -[normalize mimeMatch]. rewrite Hm. reflexivity.
Qed.

End Matcher.

(** ** Body presence *)

Lemma js_trim_blank (s : string) : str_forallb js_ws s = true -> js_trim s = "".
Proof.
  intros H. unfold js_trim.
  assert (Hs : js_trimStart s = "").
  { induction s as [|c r IH]; simpl in *; [reflexivity|].
    apply andb_prop in H as [Hc Hr]. rewrite Hc. exact (IH Hr). }
  rewrite Hs. reflexivity.
Qed.

(** C6: [hasBody] holds iff [transfer-encoding] is present (with any
    value) or [content-length] is present and [Number] of it is not
    [NaN]; e.g. an empty [transfer-encoding] and a [content-length] of
    ["0"] count, a [content-length] of ["bogus"] does not. *)
Theorem hasBody_spec (h : gmap string string) :
  (hasBody h = true <->
     h !! "transfer-encoding" <> None \/
     exists v, h !! "content-length" = Some v /\ js_isNaN_string v = false) /\
  hasBody {[ "transfer-encoding" := "" ]} = true /\
  hasBody {[ "content-length" := "0" ]} = true /\
  hasBody {[ "content-length" := "bogus" ]} = false.
Proof.
  split; [|vm_compute; repeat split].
  unfold hasBody, js_isNaN. split.
  - intros H. apply orb_true_iff in H as [H|H].
    + left. apply negb_true_iff, bool_decide_eq_false in H. exact H.
    + right. destruct (h !! "content-length") as [v|]; [|discriminate].
      exists v. split; [reflexivity | apply negb_true_iff; exact H].
  - intros [H|(v & Hv & Hn)]; apply orb_true_iff.
    + left. apply negb_true_iff, bool_decide_eq_false. exact H.
    + right. rewrite Hv, Hn. reflexivity.
Qed.

(** C10: with no [transfer-encoding], a [content-length] that is empty or
    only whitespace makes [hasBody] true ([Number] of it is [0]). *)
Theorem hasBody_blank_content_length (h : gmap string string) (s : string) :
  h !! "transfer-encoding" = None -> h !! "content-length" = Some s ->
  str_forallb js_ws s = true -> hasBody h = true.
Proof.
  intros Hte Hcl Hws. unfold hasBody, js_isNaN, js_isNaN_string.
  rewrite Hcl, (js_trim_blank s Hws). apply orb_true_r.
Qed.

(** C2 (counterexample): a value with two ['/'] is not rejected when the
    second one sits in a quoted parameter value; [is(v, '*/*')] returns
    ['text/html'], not [false]. *)
Lemma is_quoted_slash_counterexample :
  count_char "/" quoted_slash_header = 2 /\
  is mime_db_excerpt (Some quoted_slash_header) [JArr [JStr "*/*"]] = Ret (JStr "text/html").
Proof. vm_compute. split; reflexivity. Qed.

Lemma normalizeType_idempotent_witness :
  normalizeType "Text/HTML ; Charset=UTF-8" = Ret "text/html" /\
  normalizeType "text/html" = Ret "text/html".
Proof.
  assert (H : normalizeType "Text/HTML ; Charset=UTF-8" = Ret "text/html") by (vm_compute; reflexivity).
  split; [exact H | exact (proj1 (normalizeType_idempotent _ _ H))].
Defined.

Lemma is_actual_invalid_or_bare_witness :
  is mime_db_excerpt (Some "bogus") [JArr [JStr "*/*"]] = Ret (JBool false) /\
  tryNormalizeType (Some "text/html/x") = None /\
  is mime_db_excerpt (Some "Text/HTML; charset=utf-8") [JArr []] = Ret (JStr "text/html") /\
  "text/html" = js_toLowerCase (js_trim (text_before ";" "Text/HTML; charset=utf-8")).
Proof.
  split; [|split; [|split]].
  - apply (proj1 (is_actual_invalid_or_bare mime_db_excerpt (Some "bogus") [JArr [JStr "*/*"]])).
    vm_compute. reflexivity.
  - apply (proj1 (proj2 (is_actual_invalid_or_bare mime_db_excerpt None []))).
    vm_compute. discriminate.
  - apply (proj1 (proj2 (proj2 (is_actual_invalid_or_bare mime_db_excerpt
             (Some "Text/HTML; charset=utf-8") [JArr []])))); vm_compute; reflexivity.
  - apply (proj1 (proj2 (proj2 (proj2 (is_actual_invalid_or_bare mime_db_excerpt None []))))).
    vm_compute. reflexivity.
Defined.

Lemma typeIs_decomposition_witness :
  hasBody (headers_of [("content-length", "bogus")]) = false /\
  typeIs mime_db_excerpt (<["content-type" := "text/html"]> (headers_of [("content-length", "bogus")]))
    [JStr "*/*"] = Ret JNull /\
  typeIs mime_db_excerpt (headers_of [("content-length", "0")]) [JStr "*/*"] <> Ret JNull.
Proof.
  assert (Hb : hasBody (headers_of [("content-length", "bogus")]) = false) by (vm_compute; reflexivity).
  split; [exact Hb|split].
  - exact (proj2 (proj2 (typeIs_decomposition mime_db_excerpt _ [])) Hb "text/html" [JStr "*/*"]).
  - intros H.
    apply (proj1 (proj1 (proj2 (typeIs_decomposition mime_db_excerpt
                                  (headers_of [("content-length", "0")]) [JStr "*/*"])))) in H.
    vm_compute in H. discriminate H.
Defined.

Lemma is_first_match_result_witness :
  tryNormalizeType (Some "image/png") = Some "image/png" /\
  is mime_db_excerpt (Some "image/png") [JArr ([JStr "text/*"] ++ JStr "png" :: [JStr "image/*"])] =
  Ret (JStr "png").
Proof.
  assert (Ha : tryNormalizeType (Some "image/png") = Some "image/png") by (vm_compute; reflexivity).
  split; [exact Ha|].
  rewrite (is_first_match_result mime_db_excerpt (Some "image/png") "image/png"
             [JStr "text/*"] [JStr "image/*"] "png" Ha).
  - vm_compute. reflexivity.
  - constructor; [vm_compute; reflexivity | constructor].
  - vm_compute. reflexivity.
Defined.

Lemma is_first_match_wins_witness :
  is mime_db_excerpt (Some "image/png") [JArr ([JStr "jpeg"] ++ JStr "image/*" :: [JStr "png"])] =
  is mime_db_excerpt (Some "image/png") [JArr [JStr "image/*"]].
Proof.
  apply (is_first_match_wins mime_db_excerpt (Some "image/png") "image/png"
           [JStr "jpeg"] [JStr "png"] [] (JStr "image/*")).
  - vm_compute. reflexivity.
  - constructor; [vm_compute; reflexivity | constructor].
  - vm_compute. reflexivity.
Defined.

Lemma mimeMatch_suffix_wildcard_witness :
  mimeMatch (Some ("*" ++ "/" ++ "*+json")) ("application" ++ "/" ++ "vnd+json") = true.
Proof.
  apply (proj1 (mimeMatch_suffix_wildcard "*" "*+json" "application" "vnd+json"
                  eq_refl eq_refl eq_refl eq_refl eq_refl)).
  split; [left; reflexivity | split; [simpl; lia | reflexivity]].
Defined.

Lemma hasBody_spec_witness : hasBody {[ "content-length" := " 12 " ]} = true.
Proof.
  apply (proj2 (proj1 (hasBody_spec {[ "content-length" := " 12 " ]}))).
  right. exists " 12 ". split; [vm_compute | vm_compute]; reflexivity.
Defined.

Lemma is_typeIs_never_throw_witness :
  normalize mime_db_excerpt JFun = None /\
  is mime_db_excerpt (Some "text/html;") [JArr [JStr "*/*"]] = Ret (JBool false).
Proof.
  split.
  - exact (proj1 (proj1 (proj2 (proj2 (is_typeIs_never_throw mime_db_excerpt)))
                    JFun (fun s H => ltac:(discriminate H)))).
  - apply (proj2 (proj2 (proj2 (is_typeIs_never_throw mime_db_excerpt)))
             "text/html;" "invalid parameter format").
    vm_compute. reflexivity.
Defined.

Lemma is_uppercase_slash_pattern_witness :
  is mime_db_excerpt (Some "text/HTML") [JArr [JStr "text/HTML"]] = Ret (JBool false).
Proof.
  apply (proj1 (is_uppercase_slash_pattern mime_db_excerpt (Some "text/HTML") "text/HTML"
                  ltac:(vm_compute; discriminate) ltac:(vm_compute; reflexivity))).
Defined.

Lemma hasBody_blank_content_length_witness :
  hasBody {[ "content-length" := "" ]} = true /\ hasBody {[ "content-length" := " " ]} = true.
Proof.
  split.
  - apply (hasBody_blank_content_length {[ "content-length" := "" ]} "");
      vm_compute; reflexivity.
  - apply (hasBody_blank_content_length {[ "content-length" := " " ]} " ");
      vm_compute; reflexivity.
Defined.

(** * Further properties of the module *)

(** ** Splitting on ['/'] *)

Lemma split_single_inv (s y : string) :
  js_split "/" s = [y] -> s = y /\ no_slash y = true.
Proof.
  revert y. induction s as [|d r IH]; intros y H; simpl in H.
  - injection H as <-. split; reflexivity.
  - destruct (Ascii.eqb d "/") eqn:E.
    + injection H as _ Hr. exfalso. exact (js_split_nonempty "/" r Hr).
    + destruct (js_split "/" r) as [|x xs] eqn:Er; [exfalso; exact (js_split_nonempty "/" r Er)|].
      injection H as <- ->. destruct (IH x eq_refl) as [-> Hx].
      split; [reflexivity|]. unfold no_slash; cbn [str_forallb]; rewrite E. exact Hx.
Qed.

Lemma split_two_inv (s x y : string) :
  js_split "/" s = [x; y] ->
  s = x ++ String "/" y /\ no_slash x = true /\ no_slash y = true.
Proof.
  revert x. induction s as [|d r IH]; intros x H; simpl in H; [discriminate|].
  destruct (Ascii.eqb d "/") eqn:E.
  - injection H as <- Hr. apply Ascii.eqb_eq in E. subst d.
    destruct (split_single_inv r y Hr) as [-> Hy].
    split; [reflexivity | split; [reflexivity | exact Hy]].
  - destruct (js_split "/" r) as [|x' xs] eqn:Er; [exfalso; exact (js_split_nonempty "/" r Er)|].
    injection H as <- Hxs. subst xs. destruct (IH x' eq_refl) as (-> & Hx & Hy).
    split; [reflexivity | split; [|exact Hy]]. unfold no_slash; cbn [str_forallb]; rewrite E. exact Hx.
Qed.

Lemma count_one_split (s : string) :
  count_char "/" s = 1 -> exists x y, js_split "/" s = [x; y].
Proof.
  intros H. pose proof (count_char_split "/" s) as Hc.
  destruct (js_split "/" s) as [|x [|y [|z l]]]; simpl in Hc; try lia.
  exists x, y. reflexivity.
Qed.

(** ** Slices *)

Lemma str_length_app (x y : string) :
  String.length (x ++ y) = String.length x + String.length y.
Proof. induction x as [|c r IH]; simpl; [reflexivity | rewrite IH; reflexivity]. Qed.

Lemma substring_app_l (pre x : string) (n : nat) :
  substring (String.length pre) n (pre ++ x) = substring 0 n x.
Proof. induction pre as [|c r IH]; simpl; [reflexivity | exact IH]. Qed.

Lemma substring_split (y : string) (k : nat) :
  k <= String.length y ->
  y = substring 0 k y ++ substring k (String.length y - k) y.
Proof.
  revert k. induction y as [|c r IH]; intros k Hk; simpl in *.
  - destruct k; reflexivity.
  - destruct k as [|k]; simpl.
    + rewrite substring_all. reflexivity.
    + transitivity (String c (substring 0 k r ++ substring k (String.length r - k) r));
        [f_equal; apply IH; lia | reflexivity].
Qed.

Lemma substring_length (y : string) (k n : nat) :
  k + n <= String.length y -> String.length (substring k n y) = n.
Proof.
  revert k n. induction y as [|c r IH]; intros k n H; simpl in *.
  - destruct k, n; simpl in *; lia.
  - destruct k as [|k].
    + destruct n as [|n]; simpl; [reflexivity|]. f_equal. apply IH. lia.
    + apply IH. lia.
Qed.

(** The last [length x] characters of [y] are [x] iff [y] ends with [x]. *)
Lemma substring_suffix (x y : string) :
  String.length x <= String.length y ->
  (substring (String.length y - String.length x) (String.length x) y = x <->
   exists pre, y = pre ++ x).
Proof.
  intros Hl. split.
  - intros H. exists (substring 0 (String.length y - String.length x) y).
    rewrite (substring_split y (String.length y - String.length x)) at 1 by lia.
    replace (String.length y - (String.length y - String.length x)) with (String.length x) by lia.
    rewrite H. reflexivity.
  - intros [pre ->]. rewrite str_length_app.
    replace (String.length pre + String.length x - String.length x) with (String.length pre) by lia.
    rewrite substring_app_l. apply substring_all.
Qed.

(** ** The matcher *)

Lemma slice2_not_star_plus (s : string) :
  String.prefix "*+" s = false -> String.eqb (js_slice s 0 (Some 2%Z)) "*+" = false.
Proof.
  intros H. destruct (String.eqb (js_slice s 0 (Some 2%Z)) "*+") eqn:E; [|reflexivity].
  apply String.eqb_eq, js_slice_head2 in E as [r ->]. destruct r; discriminate.
Qed.

Lemma mimeMatch_self (a : string) : mimeMatch (Some a) a = Nat.eqb (count_char "/" a) 1.
Proof.
  unfold mimeMatch. pose proof (count_char_split "/" a) as Hc.
  destruct (js_split "/" a) as [|a0 [|a1 [|x l]]]; simpl in Hc.
  - discriminate.
  - replace (count_char "/" a) with 0 by lia. reflexivity.
  - replace (count_char "/" a) with 1 by lia.
    rewrite (String.eqb_refl a0), andb_false_r.
    destruct (String.eqb (js_slice a1 0 (Some 2%Z)) "*+") eqn:Hs.
    + apply String.eqb_eq, js_slice_head2 in Hs as [r ->]. rewrite js_slice_from1.
      rewrite (js_slice_neg_suffix _ (String.length (String "*" (String "+" r)))) by (simpl; lia).
      simpl String.length.
      replace (S (S (String.length r)) - (S (S (String.length r)) - 1)) with 1 by lia.
      replace (S (S (String.length r)) - 1) with (S (String.length r)) by lia.
      simpl. rewrite substring_all, String.eqb_refl, andb_true_r. apply Nat.leb_le. lia.
    + rewrite String.eqb_refl, andb_false_r. reflexivity.
  - replace (count_char "/" a) with (S (S (length l))) by lia. reflexivity.
Qed.

Lemma mimeMatch_shape (e a : string) :
  mimeMatch (Some e) a = true -> count_char "/" e = 1 /\ count_char "/" a = 1.
Proof.
  unfold mimeMatch. pose proof (count_char_split "/" a) as Ha. pose proof (count_char_split "/" e) as He.
  destruct (js_split "/" a) as [|a0 [|a1 [|x l]]]; try discriminate.
  destruct (js_split "/" e) as [|e0 [|e1 [|y m]]]; try discriminate.
  simpl in Ha, He. intros _. lia.
Qed.

(** The non-suffix branch of [mimeMatch], segment by segment. *)
Lemma mimeMatch_segments (e0 e1 a0 a1 : string) :
  no_slash e0 = true -> no_slash e1 = true -> no_slash a0 = true -> no_slash a1 = true ->
  String.prefix "*+" e1 = false ->
  mimeMatch (Some (e0 ++ "/" ++ e1)) (a0 ++ "/" ++ a1) =
  (String.eqb e0 "*" || String.eqb e0 a0) && (String.eqb e1 "*" || String.eqb e1 a1).
Proof.
  intros He0 He1 Ha0 Ha1 Hp. unfold mimeMatch.
  rewrite !no_slash_app_split by assumption. rewrite (slice2_not_star_plus e1 Hp).
  destruct (String.eqb e0 "*"), (String.eqb e0 a0), (String.eqb e1 "*"), (String.eqb e1 a1);
    reflexivity.
Qed.

Lemma no_star_split (e e0 e1 : string) :
  js_split "/" e = [e0; e1] -> no_star e = true -> no_star e0 = true /\ no_star e1 = true.
Proof.
  intros Hs H. unfold no_star in *.
  rewrite (existsb_split _ "/") in H by reflexivity. rewrite Hs in H. simpl in H.
  rewrite orb_false_r in H. apply negb_true_iff, orb_false_iff in H as [H0 H1].
  rewrite H0, H1. split; reflexivity.
Qed.

(** Without a ['*'], a pattern matches exactly the equal media type. *)
Lemma mimeMatch_no_star (e a : string) :
  no_star e = true -> mimeMatch (Some e) a = String.eqb e a && Nat.eqb (count_char "/" a) 1.
Proof.
  intros Hn. destruct (String.eqb e a) eqn:Eq.
  - apply String.eqb_eq in Eq. subst e. apply mimeMatch_self.
  - change (false && Nat.eqb (count_char "/" a) 1) with false.
    destruct (mimeMatch (Some e) a) eqn:Hm; [|reflexivity].
    exfalso. destruct (mimeMatch_shape e a Hm) as [Hce Hca].
    destruct (count_one_split e Hce) as (e0 & e1 & Hse).
    destruct (count_one_split a Hca) as (a0 & a1 & Hsa).
    destruct (split_two_inv e e0 e1 Hse) as (-> & He0 & He1).
    destruct (split_two_inv a a0 a1 Hsa) as (-> & Ha0 & Ha1).
    destruct (no_star_split _ e0 e1 Hse Hn) as [Hn0 Hn1].
    assert (Hp : String.prefix "*+" e1 = false).
    { destruct e1 as [|c r]; [reflexivity|]. simpl in Hn1.
      change (String.prefix "*+" (String c r)) with
        (if ascii_dec "*" c then String.prefix "+" r else false).
      destruct (ascii_dec "*" c) as [<-|]; [discriminate | reflexivity]. }
    change (e0 ++ String "/" e1) with (e0 ++ "/" ++ e1) in Hm, Eq.
    change (a0 ++ String "/" a1) with (a0 ++ "/" ++ a1) in Hm, Eq.
    rewrite mimeMatch_segments in Hm by assumption.
    assert (Hs0 : String.eqb e0 "*" = false) by (destruct (String.eqb e0 "*") eqn:E;
      [apply String.eqb_eq in E; subst e0; discriminate | reflexivity]).
    assert (Hs1 : String.eqb e1 "*" = false) by (destruct (String.eqb e1 "*") eqn:E;
      [apply String.eqb_eq in E; subst e1; discriminate | reflexivity]).
    rewrite Hs0, Hs1 in Hm. simpl in Hm. apply andb_prop in Hm as [H0 H1].
    apply String.eqb_eq in H0, H1. subst. rewrite String.eqb_refl in Eq. discriminate.
Qed.

(** ** The decision loop, continued *)

Section Loop2.

Variable types : string -> option string.

Lemma is_loop_none (l : list JVal) (a : string) :
  Forall (fun q => mimeMatch (normalize types q) a = false) l ->
  is_loop types l a = Ret (JBool false).
Proof. induction 1 as [|q l Hq _ IH]; simpl; [reflexivity | rewrite Hq; exact IH]. Qed.

Lemma is_loop_false_inv (l : list JVal) (a : string) :
  is_loop types l a = Ret (JBool false) ->
  Forall (fun q => mimeMatch (normalize types q) a = false) l.
Proof.
  induction l as [|p l IH]; simpl; intros H; [constructor|].
  destruct (mimeMatch (normalize types p) a) eqn:Hm.
  - destruct (match_is_string types p a Hm) as [t ->]. simpl in H.
    destruct (js_at0_is t "+" || _); discriminate.
  - constructor; [exact Hm | exact (IH H)].
Qed.

Lemma is_loop_string_inv (l : list JVal) (a s : string) :
  is_loop types l a = Ret (JStr s) ->
  s = a \/ (In (JStr s) l /\ mimeMatch (normalize types (JStr s)) a = true).
Proof.
  induction l as [|p l IH]; simpl; intros H; [discriminate|].
  destruct (mimeMatch (normalize types p) a) eqn:Hm.
  - destruct (match_is_string types p a Hm) as [t ->]. simpl in H.
    destruct (js_at0_is t "+" || _); injection H as <-; [left; reflexivity|].
    right. split; [left; reflexivity | exact Hm].
  - destruct (IH H) as [Hs | [Hin Hm']]; [left; exact Hs | right; split; [right; exact Hin | exact Hm']].
Qed.

Lemma is_single (raw : option string) (a : string) (p : JVal) :
  tryNormalizeType raw = Some a ->
  is types raw [JArr [p]] =
  if mimeMatch (normalize types p) a then ret_expr p a else Ret (JBool false).
Proof.
  intros Ha. rewrite (is_array_nonempty types raw a [p] Ha) by discriminate. reflexivity.
Qed.

End Loop2.

Lemma tryNormalizeType_split (raw : option string) (a : string) :
  tryNormalizeType raw = Some a -> exists a0 a1, js_split "/" a = [a0; a1].
Proof.
  intros H. destruct (tryNormalizeType_Some _ _ H) as (v & _ & Hn).
  destruct (normalizeType_Ret v a Hn) as (_ & _ & Ht & _).
  apply count_one_split, type_regexp_count, Ht.
Qed.

(** A normalized media type normalizes to itself. *)
Lemma normalizeType_fixpoint (v a : string) :
  normalizeType v = Ret a -> normalizeType a = Ret a.
Proof.
  intros H. destruct (normalizeType_Ret v a H) as (Hout & _ & Htest & Hne).
  pose proof (type_regexp_chars a Htest) as Hc.
  pose proof (js_indexOf_semicolon_none a Hc) as Hsemi.
  apply String.eqb_neq in Hne.
  unfold normalizeType, ct_parse. rewrite Hne, Hsemi, (js_trim_id a Hc), Htest. simpl.
  unfold ct_format_type. simpl. rewrite Hout, js_toLowerCase_idem, <- Hout, Hne, Htest.
  reflexivity.
Qed.

(** ** [path.extname] on ["x." + path] *)

Lemma list_ascii_app (x y : string) :
  list_ascii_of_string (x ++ y) = (list_ascii_of_string x ++ list_ascii_of_string y)%list.
Proof. induction x as [|c r IH]; simpl; [reflexivity | rewrite IH; reflexivity]. Qed.

Lemma length_list_ascii (x : string) : length (list_ascii_of_string x) = String.length x.
Proof. induction x as [|c r IH]; simpl; [reflexivity | rewrite IH; reflexivity]. Qed.

(** Characters that are neither ['.'] nor ['/'] before any dot was seen:
    only the first one (the last of the path) sets [end]. *)
Lemma extname_scan_plain (l rest : list ascii) (i : Z) (st : ExtScan) :
  Forall (fun c => Ascii.eqb c "." = false /\ Ascii.eqb c "/" = false) l ->
  st.(startDot) = (-1)%Z -> (Z.of_nat (length l) <= i + 1)%Z ->
  extname_loop (l ++ rest)%list i st =
  extname_loop rest (i - Z.of_nat (length l))
    (match l with [] => st | _ => if Z.eqb st.(endPos) (-1) then set_end st (i + 1) else st end).
Proof.
  intros Hl. revert i st. induction Hl as [|c l [Hd Hs] Hl IH]; intros i st Hst Hi.
  - simpl. rewrite Z.sub_0_r. reflexivity.
  - simpl app. simpl extname_loop. rewrite Hs, Hd.
    set (st1 := if Z.eqb st.(endPos) (-1) then set_end st (i + 1) else st).
    assert (Hsd : st1.(startDot) = (-1)%Z) by (unfold st1; destruct (Z.eqb _ _); exact Hst).
    rewrite Hsd. change (if negb (Z.eqb (-1) (-1)) then set_preDotState st1 (-1) else st1) with st1.
    simpl length in Hi. rewrite (IH (i - 1)%Z st1 Hsd) by lia.
    replace (i - 1 - Z.of_nat (length l))%Z with (i - Z.of_nat (S (length l)))%Z by lia.
    f_equal. destruct l as [|c' l']; [reflexivity|].
    unfold st1. destruct (Z.eqb st.(endPos) (-1)) eqn:E; cbn [endPos set_end].
    + replace (Z.eqb (i + 1) (-1)) with false by (symmetry; apply Z.eqb_neq; simpl length in Hi; lia).
      reflexivity.
    + rewrite E. reflexivity.
Qed.

(** After the dot was found, the characters before it (none of them ['/'],
    the first of the path not a ['.']) leave [startDot] and [end] alone
    and end with [preDotState = -1]. *)
Lemma extname_scan_prefix (l : list ascii) (c0 : ascii) (i : Z) (st : ExtScan) :
  Forall (fun c => Ascii.eqb c "/" = false) l ->
  Ascii.eqb c0 "." = false -> Ascii.eqb c0 "/" = false ->
  st.(startDot) <> (-1)%Z -> st.(endPos) <> (-1)%Z ->
  extname_loop (l ++ [c0])%list i st = set_preDotState st (-1).
Proof.
  intros Hl Hd0 Hs0. revert i st. induction Hl as [|c l Hs Hl IH]; intros i st Hsd He.
  - simpl. rewrite Hs0, Hd0. apply Z.eqb_neq in Hsd, He. rewrite He, Hsd. reflexivity.
  - simpl app. simpl extname_loop. rewrite Hs.
    pose proof He as He'. apply Z.eqb_neq in He'. rewrite He'.
    pose proof Hsd as Hsd'. apply Z.eqb_neq in Hsd'.
    destruct (Ascii.eqb c "."); rewrite Hsd'; simpl.
    + destruct (negb (Z.eqb st.(preDotState) 1)); simpl.
      * rewrite IH by (destruct st; simpl in *; assumption). destruct st; reflexivity.
      * rewrite IH by assumption. reflexivity.
    + rewrite IH by (destruct st; simpl in *; assumption). destruct st; reflexivity.
Qed.

Lemma path_extname_last_dot (c0 : ascii) (p w : string) :
  Ascii.eqb c0 "." = false -> Ascii.eqb c0 "/" = false ->
  no_slash p = true -> no_dot w = true -> no_slash w = true ->
  path_extname (String c0 p ++ "." ++ w) = "." ++ w.
Proof.
  intros Hd0 Hs0 Hp Hdw Hsw. unfold path_extname.
  set (path := String c0 p ++ "." ++ w).
  assert (Hlen : String.length path = S (String.length p) + S (String.length w))
    by (unfold path; rewrite str_length_app; reflexivity).
  assert (Hlp : String.length (p ++ "." ++ w) = String.length p + S (String.length w))
    by (rewrite str_length_app; reflexivity).
  assert (Hl : rev (list_ascii_of_string path) =
               (rev (list_ascii_of_string w) ++ "."%char :: rev (list_ascii_of_string p) ++ [c0])%list).
  { unfold path. rewrite list_ascii_app. simpl. rewrite rev_app_distr. simpl.
    rewrite <- !List.app_assoc. reflexivity. }
  assert (Fw : Forall (fun c => Ascii.eqb c "." = false /\ Ascii.eqb c "/" = false)
                 (rev (list_ascii_of_string w))).
  { apply Forall_rev. clear -Hdw Hsw. induction w as [|c r IH]; simpl in *; constructor.
    - apply andb_prop in Hdw as [Hd _]. apply andb_prop in Hsw as [Hs _].
      apply negb_true_iff in Hd, Hs. split; assumption.
    - apply IH; [apply andb_prop in Hdw | apply andb_prop in Hsw]; tauto. }
  assert (Fp : Forall (fun c => Ascii.eqb c "/" = false) (rev (list_ascii_of_string p))).
  { apply Forall_rev. clear -Hp. induction p as [|c r IH]; simpl in *; constructor.
    - apply andb_prop in Hp as [Hs _]. apply negb_true_iff in Hs. exact Hs.
    - apply IH. apply andb_prop in Hp. tauto. }
  rewrite Hl, extname_scan_plain by (reflexivity || exact Fw ||
    (rewrite length_rev, length_list_ascii, Hlen; lia)).
  rewrite length_rev, length_list_ascii.
  set (B := mkExtScan (Z.of_nat (S (String.length p))) 0 (Z.of_nat (String.length path)) false 0).
  assert (HB : extname_loop ("."%char :: rev (list_ascii_of_string p) ++ [c0])%list
                 (Z.of_nat (String.length path) - 1 - Z.of_nat (String.length w))
                 match rev (list_ascii_of_string w) with
                 | [] => mkExtScan (-1) 0 (-1) true 0
                 | _ :: _ =>
                     if Z.eqb (endPos (mkExtScan (-1) 0 (-1) true 0)) (-1)
                     then set_end (mkExtScan (-1) 0 (-1) true 0) (Z.of_nat (String.length path) - 1 + 1)
                     else mkExtScan (-1) 0 (-1) true 0
                 end =
               extname_loop (rev (list_ascii_of_string p) ++ [c0])%list
                 (Z.of_nat (String.length p)) B).
  { destruct (rev (list_ascii_of_string w)) as [|x xs] eqn:Ew.
    - assert (Hw0 : String.length w = 0)
        by (rewrite <- length_list_ascii, <- length_rev, Ew; reflexivity).
      simpl extname_loop. unfold B, set_startDot, set_end.
      cbn [startDot startPart endPos matchedSlash preDotState].
      f_equal; [lia | f_equal; lia].
    - simpl extname_loop. unfold B, set_startDot, set_end.
      cbn [startDot startPart endPos matchedSlash preDotState].
      rewrite (proj2 (Z.eqb_neq (Z.of_nat (S (String.length (p ++ "." ++ w))) - 1 + 1) (-1)))
        by lia.
      cbn [startDot Z.eqb Pos.eqb]. cbn [startDot startPart endPos matchedSlash preDotState].
      f_equal; [lia | f_equal; lia]. }
  rewrite HB, extname_scan_prefix by (exact Fp || reflexivity || exact Hd0 || exact Hs0 ||
    (unfold B; simpl; lia)).
  unfold B. cbn [set_preDotState startDot endPos preDotState startPart].
  replace (Z.eqb (Z.of_nat (S (String.length p))) (-1)) with false
    by (symmetry; apply Z.eqb_neq; lia).
  replace (Z.eqb (Z.of_nat (String.length path)) (-1)) with false
    by (symmetry; apply Z.eqb_neq; lia).
  cbn [Z.eqb orb andb].
  unfold js_slice, js_rel.
  replace (Z.of_nat (S (String.length p)) <? 0)%Z with false by (symmetry; apply Z.ltb_ge; lia).
  replace (Z.of_nat (String.length path) <? 0)%Z with false by (symmetry; apply Z.ltb_ge; lia).
  rewrite Z.min_l, Z.min_l by lia. rewrite !Nat2Z.id.
  rewrite Hlen.
  assert (Hr : S (String.length p) + S (String.length w) - S (String.length p) = String.length ("." ++ w)).
  { simpl. change ("" ++ w) with w. lia. }
  rewrite Hr.
  unfold path. change (S (String.length p)) with (String.length (String c0 p)) at 1.
  rewrite substring_app_l. apply substring_all.
Qed.

(** ** More string facts *)

Lemma str_app_cons (c : ascii) (r y : string) : String c r ++ y = String c (r ++ y).
Proof. reflexivity. Qed.

Lemma str_forallb_app (p : ascii -> bool) (x y : string) :
  str_forallb p (x ++ y) = str_forallb p x && str_forallb p y.
Proof. induction x as [|c r IH]; [reflexivity|]. rewrite str_app_cons. simpl. rewrite IH. apply andb_assoc. Qed.

Lemma str_existsb_app (p : ascii -> bool) (x y : string) :
  str_existsb p (x ++ y) = str_existsb p x || str_existsb p y.
Proof. induction x as [|c r IH]; [reflexivity|]. rewrite str_app_cons. simpl. rewrite IH. apply orb_assoc. Qed.

Lemma str_app_assoc (x y z : string) : x ++ (y ++ z) = (x ++ y) ++ z.
Proof. induction x as [|c r IH]; [reflexivity|]. rewrite !str_app_cons, IH. reflexivity. Qed.

Lemma no_slash_indexOf (s : string) : no_slash s = true -> js_indexOf "/" s = None.
Proof.
  induction s as [|c r IH]; simpl; intros H; [reflexivity|].
  apply andb_prop in H as [Hc Hr]. apply negb_true_iff in Hc. rewrite Hc, IH by exact Hr.
  reflexivity.
Qed.

Lemma js_indexOf_app (c : ascii) (x y : string) :
  js_indexOf c x = None -> js_indexOf c (x ++ String c y) = Some (String.length x).
Proof.
  induction x as [|d r IH]; intros H.
  - simpl. rewrite Ascii.eqb_refl. reflexivity.
  - rewrite str_app_cons. simpl in *. destruct (Ascii.eqb d c); [discriminate|].
    destruct (js_indexOf c r); [discriminate|]. rewrite IH by reflexivity. reflexivity.
Qed.

Lemma skip_spaces_all (s : string) :
  str_forallb (fun c => Ascii.eqb c " ") s = true -> skip_spaces s = "".
Proof.
  induction s as [|c r IH]; simpl; intros H; [reflexivity|].
  apply andb_prop in H as [Hc Hr]. rewrite Hc. exact (IH Hr).
Qed.

Lemma span_while_all (p : ascii -> bool) (s : string) :
  str_forallb p s = true -> span_while p s = (s, "").
Proof.
  induction s as [|c r IH]; simpl; intros H; [reflexivity|].
  apply andb_prop in H as [Hc Hr]. rewrite Hc, IH by exact Hr. reflexivity.
Qed.

Lemma has_char_neq (c : ascii) (x y : string) :
  str_existsb (fun d => Ascii.eqb d c) x = true ->
  str_existsb (fun d => Ascii.eqb d c) y = false -> String.eqb x y = false.
Proof. intros Hx Hy. apply String.eqb_neq. intros ->. congruence. Qed.

(** ** [mime.lookup] of a name without ['/'] *)

Section Lookup.

Variable types : string -> option string.

Lemma mime_lookup_ext (t u w : string) :
  no_slash t = true -> no_dot w = true -> (t = u ++ "." ++ w \/ t = w) ->
  mime_lookup types t = registry_value types (js_toLowerCase w).
Proof.
  intros Ht Hw Hd.
  assert (Hsw : no_slash w = true /\ no_slash u = true \/ t = w).
  { destruct Hd as [-> | ->]; [left|right; reflexivity].
    unfold no_slash in *. rewrite !str_forallb_app in Ht. simpl in Ht.
    apply andb_prop in Ht as [Hu Hw']. split; [exact Hw' | exact Hu]. }
  destruct (String.eqb t "") eqn:Et.
  - apply String.eqb_eq in Et. subst t.
    destruct Hd as [Hd | <-].
    + destruct u; discriminate.
    + reflexivity.
  - unfold mime_lookup. rewrite Et.
    assert (Hx : path_extname ("x." ++ t) = "." ++ w).
    { destruct Hd as [-> | ->].
      - replace ("x." ++ (u ++ "." ++ w)) with (String "x" ("." ++ u) ++ "." ++ w)
          by (rewrite !str_app_cons, <- !str_app_assoc; reflexivity).
        destruct Hsw as [[Hw' Hu] | Heq].
        + apply path_extname_last_dot; try reflexivity; assumption.
        + exfalso. apply (f_equal String.length) in Heq.
          rewrite !str_length_app in Heq. simpl in Heq. lia.
      - change ("x." ++ w) with (String "x" "" ++ "." ++ w).
        apply path_extname_last_dot; try reflexivity; assumption. }
    rewrite Hx. change (js_toLowerCase ("." ++ w)) with (String "." (js_toLowerCase w)).
    rewrite js_slice_from1. reflexivity.
Qed.

End Lookup.

(** ** Properties of the matcher *)

(** X1: every media type with exactly one ['/'] matches itself, whatever
    wildcard or suffix characters it holds; nothing else does. *)
Theorem mimeMatch_reflexive (a : string) :
  mimeMatch (Some a) a = Nat.eqb (count_char "/" a) 1.
Proof. apply mimeMatch_self. Qed.

(** X2: a successful match needs exactly one ['/'] in both the pattern
    and the media type. *)
Theorem mimeMatch_true_one_slash (e a : string) :
  mimeMatch (Some e) a = true -> count_char "/" e = 1 /\ count_char "/" a = 1.
Proof. apply mimeMatch_shape. Qed.

(** X3: for a pattern [e0/e1] whose subtype does not start with ["*+"],
    [mimeMatch] holds iff each segment is ["*"] or equal to the media
    type's segment. *)
Theorem mimeMatch_plain_segments (e0 e1 a0 a1 : string) :
  no_slash e0 = true -> no_slash e1 = true -> no_slash a0 = true -> no_slash a1 = true ->
  String.prefix "*+" e1 = false ->
  mimeMatch (Some (e0 ++ "/" ++ e1)) (a0 ++ "/" ++ a1) =
  (String.eqb e0 "*" || String.eqb e0 a0) && (String.eqb e1 "*" || String.eqb e1 a1).
Proof. apply mimeMatch_segments. Qed.

(** X4: a pattern without ['*'] matches exactly the media type equal to
    it, provided that type has exactly one ['/']. *)
Theorem mimeMatch_without_star (e a : string) :
  no_star e = true -> mimeMatch (Some e) a = String.eqb e a && Nat.eqb (count_char "/" a) 1.
Proof. apply mimeMatch_no_star. Qed.

Section Extras.

Variable types : string -> option string.

(** X5: a pattern without ['/'] that is not a shorthand and does not
    start with ['+'] is a file name or extension: [normalize] looks up the
    text after its last ['.'] (all of it when there is none), in lower
    case, in the registry; so ["png"], [".png"], ["PNG"] and
    ["file.png"] normalize alike. *)
Theorem normalize_extension (t u w : string) :
  no_slash t = true -> no_dot w = true -> (t = u ++ "." ++ w \/ t = w) ->
  t <> "urlencoded" -> t <> "multipart" -> js_at0_is t "+" = false ->
  normalize types (JStr t) = registry_value types (js_toLowerCase w).
Proof.
  intros Ht Hw Hd Hu Hm Hp. unfold normalize.
  apply String.eqb_neq in Hu, Hm. rewrite Hu, Hm, Hp, (no_slash_indexOf t Ht).
  exact (mime_lookup_ext types t u w Ht Hw Hd).
Qed.

(** X6: the wildcard patterns ["*/*"] and ["type/*"] (for the actual
    type's own [type], unless it starts with ['+']) match every valid
    actual value, and [is] then returns the normalized actual type. *)
Theorem is_wildcard_patterns (raw : option string) (a : string) :
  tryNormalizeType raw = Some a ->
  is types raw [JArr [JStr "*/*"]] = Ret (JStr a) /\
  (forall a0 a1, js_split "/" a = [a0; a1] -> js_at0_is a0 "+" = false ->
   is types raw [JArr [JStr (a0 ++ "/*")]] = Ret (JStr a)).
Proof.
  intros Ha. destruct (tryNormalizeType_split raw a Ha) as (b0 & b1 & Hb).
  destruct (split_two_inv a b0 b1 Hb) as (Ea & Hb0 & Hb1).
  split.
  - rewrite (is_single types raw a _ Ha).
    replace (normalize types (JStr "*/*")) with (Some ("*" ++ "/" ++ "*")) by reflexivity.
    rewrite Ea. change (b0 ++ String "/" b1) with (b0 ++ "/" ++ b1).
    rewrite mimeMatch_segments by reflexivity || assumption. reflexivity.
  - intros a0 a1 Hs Hp. rewrite Hs in Hb. injection Hb as -> ->.
    rewrite (is_single types raw a _ Ha).
    assert (Hsl : str_existsb (fun d => Ascii.eqb d "/") (b0 ++ "/*") = true)
      by (rewrite str_existsb_app; apply orb_true_r).
    assert (Hst : str_existsb (fun d => Ascii.eqb d "*") (b0 ++ "/*") = true)
      by (rewrite str_existsb_app; apply orb_true_r).
    assert (Hn : normalize types (JStr (b0 ++ "/*")) = Some (b0 ++ "/" ++ "*")).
    { unfold normalize.
      rewrite (has_char_neq "/" _ "urlencoded" Hsl eq_refl),
              (has_char_neq "/" _ "multipart" Hsl eq_refl).
      replace (js_at0_is (b0 ++ "/*") "+") with false
        by (destruct b0; [reflexivity | symmetry; exact Hp]).
      rewrite <- js_indexOf_exists in Hsl.
      destruct (js_indexOf "/" (b0 ++ "/*")); [reflexivity | discriminate]. }
    rewrite Hn, Ea. change (b0 ++ String "/" b1) with (b0 ++ "/" ++ b1).
    rewrite mimeMatch_segments by reflexivity || assumption.
    rewrite String.eqb_refl, orb_true_r. simpl.
    rewrite js_indexOf_exists, Hst, orb_true_r. reflexivity.
Qed.

(** X7: a single pattern without ['*'] and not starting with ['+']
    matches when its normalized form (if it has no ['*']) is exactly the
    normalized actual type, and [is] then returns the pattern as written;
    a pattern that does not normalize gives [false]. *)
Theorem is_plain_pattern (raw : option string) (a t : string) :
  tryNormalizeType raw = Some a -> no_star t = true -> js_at0_is t "+" = false ->
  (normalize types (JStr t) = None -> is types raw [JArr [JStr t]] = Ret (JBool false)) /\
  (forall r, normalize types (JStr t) = Some r -> no_star r = true ->
   is types raw [JArr [JStr t]] = Ret (if String.eqb r a then JStr t else JBool false)).
Proof.
  intros Ha Ht Hp. rewrite (is_single types raw a _ Ha). split.
  - intros Hn. rewrite Hn. reflexivity.
  - intros r Hn Hr. rewrite Hn, mimeMatch_no_star by exact Hr.
    destruct (tryNormalizeType_split raw a Ha) as (b0 & b1 & Hb).
    pose proof (count_char_split "/" a) as Hc. rewrite Hb in Hc. simpl in Hc.
    replace (count_char "/" a) with 1 by lia. rewrite andb_true_r.
    destruct (String.eqb r a); [|reflexivity].
    unfold ret_expr, no_star in *. rewrite Hp, js_indexOf_exists.
    apply negb_true_iff in Ht. rewrite Ht. reflexivity.
Qed.

(** X8: the suffix shorthand ["+s"] (for [s] without ['/']) matches
    exactly the valid actual types whose subtype ends with ["+s"]
    (possibly being ["+s"] itself); [is] then returns the normalized
    actual type, and [false] otherwise. *)
Theorem is_suffix_pattern (raw : option string) (a a0 a1 s : string) :
  tryNormalizeType raw = Some a -> js_split "/" a = [a0; a1] -> no_slash s = true ->
  ((exists pre, a1 = pre ++ "+" ++ s) -> is types raw [JArr [JStr ("+" ++ s)]] = Ret (JStr a)) /\
  (~ (exists pre, a1 = pre ++ "+" ++ s) ->
   is types raw [JArr [JStr ("+" ++ s)]] = Ret (JBool false)).
Proof.
  intros Ha Hs Hns. destruct (split_two_inv a a0 a1 Hs) as (Ea & Ha0 & Ha1).
  rewrite (is_single types raw a _ Ha).
  replace (normalize types (JStr ("+" ++ s))) with (Some ("*" ++ "/" ++ String "*" (String "+" s)))
    by reflexivity.
  rewrite Ea. change (a0 ++ String "/" a1) with (a0 ++ "/" ++ a1).
  assert (Hm : mimeMatch (Some ("*" ++ "/" ++ String "*" (String "+" s))) (a0 ++ "/" ++ a1) = true <->
               exists pre, a1 = pre ++ "+" ++ s).
  { unfold mimeMatch. rewrite !no_slash_app_split by (exact Hns || assumption || reflexivity).
    replace (js_slice (String "*" (String "+" s)) 0 (Some 2%Z)) with "*+"
      by (change 2%Z with (Z.of_nat 2); rewrite js_slice_prefix by (simpl; lia); destruct s; reflexivity).
    rewrite js_slice_from1. simpl String.eqb at 1. cbn iota.
    replace (String.eqb "*+" "*+") with true by reflexivity. cbn iota.
    split.
    - intros H. apply andb_prop in H as [H1 H2]. apply Nat.leb_le in H1. simpl String.length in H1.
      apply String.eqb_eq in H2.
      rewrite (js_slice_neg_suffix a1 (String.length (String "*" (String "+" s)))) in H2
        by (simpl; lia).
      apply (substring_suffix ("+" ++ s) a1);
        [change (String.length ("+" ++ s)) with (S (String.length s)); lia|].
      change ("+" ++ s) with (String "+" s).
      transitivity (substring (String.length a1 - (String.length (String "*" (String "+" s)) - 1))
                      (String.length (String "*" (String "+" s)) - 1) a1);
        [reflexivity | symmetry; exact H2].
    - intros [pre Hpre].
      assert (Hlen : String.length a1 = String.length pre + S (String.length s))
        by (rewrite Hpre, str_length_app; reflexivity).
      apply andb_true_intro. split; [apply Nat.leb_le; simpl; lia|].
      rewrite (js_slice_neg_suffix a1 (String.length (String "*" (String "+" s)))) by (simpl; lia).
      apply String.eqb_eq. symmetry.
      replace (String.length (String "*" (String "+" s)) - 1) with (String.length ("+" ++ s))
        by reflexivity.
      apply substring_suffix; [rewrite Hlen; simpl; lia | exists pre; exact Hpre]. }
  split.
  - intros H. apply Hm in H. rewrite H. reflexivity.
  - intros H. destruct (mimeMatch _ _) eqn:E; [exfalso; apply H, Hm; reflexivity | reflexivity].
Qed.

(** X9: the shorthand ["multipart"] matches every valid actual type whose
    type is ["multipart"], ["urlencoded"] matches exactly
    ["application/x-www-form-urlencoded"]; [is] returns the shorthand as
    written, and [false] otherwise. *)
Theorem is_shorthand_patterns (raw : option string) (a a0 a1 : string) :
  tryNormalizeType raw = Some a -> js_split "/" a = [a0; a1] ->
  is types raw [JArr [JStr "multipart"]] =
    Ret (if String.eqb a0 "multipart" then JStr "multipart" else JBool false) /\
  is types raw [JArr [JStr "urlencoded"]] =
    Ret (if String.eqb a "application/x-www-form-urlencoded" then JStr "urlencoded" else JBool false).
Proof.
  intros Ha Hs. destruct (split_two_inv a a0 a1 Hs) as (Ea & Ha0 & Ha1). split.
  - rewrite (is_single types raw a _ Ha).
    replace (normalize types (JStr "multipart")) with (Some ("multipart" ++ "/" ++ "*")) by reflexivity.
    rewrite Ea. change (a0 ++ String "/" a1) with (a0 ++ "/" ++ a1).
    rewrite mimeMatch_segments by (reflexivity || assumption).
    rewrite (String.eqb_sym a0).
    destruct (String.eqb "multipart" a0); reflexivity.
  - rewrite (is_single types raw a _ Ha).
    replace (normalize types (JStr "urlencoded")) with (Some "application/x-www-form-urlencoded")
      by reflexivity.
    rewrite mimeMatch_no_star by reflexivity.
    pose proof (count_char_split "/" a) as Hc. rewrite Hs in Hc. simpl in Hc.
    replace (count_char "/" a) with 1 by lia. rewrite andb_true_r, (String.eqb_sym a).
    destruct (String.eqb "application/x-www-form-urlencoded" a); reflexivity.
Qed.

(** X10: [is] returns [false] exactly when the actual value is missing or
    invalid, or when patterns are given and none of them matches. *)
Theorem is_false_iff (raw : option string) (args : list JVal) :
  is types raw args = Ret (JBool false) <->
  tryNormalizeType raw = None \/
  exists a, tryNormalizeType raw = Some a /\ acceptable_of args <> [] /\
            Forall (fun q => mimeMatch (normalize types q) a = false) (acceptable_of args).
Proof.
  unfold is. split.
  - destruct (tryNormalizeType raw) as [a|] eqn:Ha; [|intros _; left; reflexivity].
    rewrite (tryNormalizeType_nonempty raw a Ha).
    destruct (acceptable_of args) as [|p l] eqn:Hl; [discriminate|].
    intros H. right. exists a. split; [reflexivity | split; [discriminate|]].
    exact (is_loop_false_inv types _ a H).
  - intros [H | (a & H & Hl & Hf)]; rewrite H; [reflexivity|].
    rewrite (tryNormalizeType_nonempty raw a H).
    destruct (acceptable_of args) as [|p l]; [contradiction|].
    exact (is_loop_none types _ a Hf).
Qed.

(** X11: [is] never invents a string: a string result is the normalized
    actual type or one of the given patterns, and a returned pattern
    matches the actual type. *)
Theorem is_string_result_origin (raw : option string) (args : list JVal) (s : string) :
  is types raw args = Ret (JStr s) ->
  exists a, tryNormalizeType raw = Some a /\
    (s = a \/ (In (JStr s) (acceptable_of args) /\ mimeMatch (normalize types (JStr s)) a = true)).
Proof.
  unfold is. destruct (tryNormalizeType raw) as [a|] eqn:Ha; [|discriminate].
  rewrite (tryNormalizeType_nonempty raw a Ha). intros H. exists a. split; [reflexivity|].
  destruct (acceptable_of args) as [|p l].
  - injection H as <-. left. reflexivity.
  - exact (is_loop_string_inv types _ a s H).
Qed.

(** X12: the two calling conventions agree: passing the patterns as
    separate arguments (the first not an array) gives what passing them
    as one array gives, for [is] and for [typeIs]. *)
Theorem is_typeIs_flattened_args (raw : option string) (h : gmap string string)
    (p : JVal) (ps : list JVal) :
  (forall l, p <> JArr l) ->
  is types raw (p :: ps) = is types raw [JArr (p :: ps)] /\
  typeIs types h (p :: ps) = typeIs types h [JArr (p :: ps)].
Proof.
  intros Hp. assert (Hacc : acceptable_of (p :: ps) = p :: ps)
    by (destruct p; try reflexivity; exfalso; exact (Hp l eq_refl)).
  unfold is, typeIs. rewrite Hacc. split; reflexivity.
Qed.

(** X13: the parameters, case and surrounding whitespace of the actual
    value never change the result of [is]: a value that normalizes gives
    the same result as its normal form, the trimmed lowercase text
    before the first [';']. *)
Theorem is_actual_normal_form (v a : string) (args : list JVal) :
  normalizeType v = Ret a ->
  a = js_toLowerCase (js_trim (text_before ";" v)) /\
  is types (Some v) args = is types (Some a) args.
Proof.
  intros H. split; [exact (proj1 (normalizeType_Ret v a H))|].
  assert (Hv : String.eqb v "" = false).
  { destruct (String.eqb v "") eqn:E; [|reflexivity].
    apply String.eqb_eq in E. subst v. discriminate. }
  destruct (normalizeType_Ret v a H) as (_ & _ & _ & Hne). apply String.eqb_neq in Hne.
  unfold is, tryNormalizeType. rewrite Hv, H, (normalizeType_fixpoint v a H). cbn iota. rewrite !Hne. reflexivity.
Qed.

(** X14: a value ending in a [';'] followed only by spaces (and no
    earlier [';']) is rejected by the parameter parser, whatever its
    media type, so [is] returns [false] for it. *)
Theorem is_dangling_semicolon (s sp : string) (args : list JVal) :
  js_indexOf ";" s = None -> str_forallb (fun c => Ascii.eqb c " ") sp = true ->
  (exists e, normalizeType (s ++ ";" ++ sp) = Throw e) /\
  is types (Some (s ++ ";" ++ sp)) args = Ret (JBool false).
Proof.
  intros Hs Hsp.
  assert (Hn : exists e, normalizeType (s ++ ";" ++ sp) = Throw e).
  { unfold normalizeType, ct_parse.
    set (hd := s ++ ";" ++ sp).
    assert (Hlen : String.length hd = String.length s + S (String.length sp))
      by (unfold hd; rewrite str_length_app; reflexivity).
    replace (String.eqb hd "") with false
      by (symmetry; apply String.eqb_neq; intros E; rewrite E in Hlen; simpl in Hlen; lia).
    replace (js_indexOf ";" hd) with (Some (String.length s)) by (symmetry; apply js_indexOf_app, Hs).
    destruct (type_regexp_test _); simpl; [|eexists; reflexivity].
    assert (Hsl : js_slice hd (Z.of_nat (String.length s)) None = String ";" sp).
    { unfold js_slice, js_rel.
      replace (Z.of_nat (String.length s) <? 0)%Z with false by (symmetry; apply Z.ltb_ge; lia).
      rewrite Z.min_l by lia. rewrite Nat2Z.id, Hlen. unfold hd.
      rewrite substring_app_l.
      replace (String.length s + S (String.length sp) - String.length s)
        with (String.length (String ";" sp)) by (simpl; lia).
      apply substring_all. }
    rewrite Hsl, Hlen. rewrite Nat.add_succ_r. simpl parse_params.
    unfold param_match. rewrite skip_spaces_all by exact Hsp.
    simpl. eexists. reflexivity. }
  split; [exact Hn|].
  destruct Hn as [e He]. unfold is, tryNormalizeType.
  destruct (String.eqb _ ""); [reflexivity|]. rewrite He. reflexivity.
Qed.

(** X15: a request with a body but no [content-type] header, or an
    empty one, gives [false], whatever the patterns. *)
Theorem typeIs_body_without_content_type (h : gmap string string) (args : list JVal) :
  hasBody h = true ->
  (h !! "content-type" = None \/ h !! "content-type" = Some "") ->
  typeIs types h args = Ret (JBool false).
Proof.
  intros Hb Hct. unfold typeIs. rewrite Hb. simpl.
  destruct Hct as [-> | ->]; reflexivity.
Qed.

(** X16: headers other than [transfer-encoding], [content-length] and
    [content-type] affect neither [hasBody] nor [typeIs]: setting or
    removing one leaves both unchanged. *)
Theorem hasBody_typeIs_other_headers (h : gmap string string) (k v : string) (args : list JVal) :
  k <> "transfer-encoding" -> k <> "content-length" -> k <> "content-type" ->
  hasBody (<[k := v]> h) = hasBody h /\ typeIs types (<[k := v]> h) args = typeIs types h args /\
  hasBody (delete k h) = hasBody h /\ typeIs types (delete k h) args = typeIs types h args.
Proof.
  intros H1 H2 H3.
  assert (Hb : hasBody (<[k := v]> h) = hasBody h)
    by (unfold hasBody; rewrite !lookup_insert_ne by congruence; reflexivity).
  assert (Hd : hasBody (delete k h) = hasBody h)
    by (unfold hasBody; rewrite !lookup_delete_ne by congruence; reflexivity).
  split; [exact Hb | split; [|split; [exact Hd|]]].
  - unfold typeIs. rewrite Hb, lookup_insert_ne by congruence. reflexivity.
  - unfold typeIs. rewrite Hd, lookup_delete_ne by congruence. reflexivity.
Qed.

End Extras.

(** X17: a [content-length] made of decimal digits, optionally signed,
    counts as a body even without [transfer-encoding]; in particular a
    negative length such as ["-1"] does. *)
Theorem hasBody_numeric_content_length (h : gmap string string) (sgn d : string) :
  h !! "content-length" = Some (sgn ++ d) -> (sgn = "" \/ sgn = "+" \/ sgn = "-") ->
  d <> "" -> str_forallb is_digit d = true -> hasBody h = true.
Proof.
  intros Hcl Hsgn Hd Hdig. unfold hasBody, js_isNaN. rewrite Hcl. apply orb_true_intro. right.
  apply negb_true_iff. unfold js_isNaN_string.
  assert (Hmd : str_forallb media_char (sgn ++ d) = true).
  { rewrite str_forallb_app. apply andb_true_intro. split.
    - destruct Hsgn as [-> | [-> | ->]]; reflexivity.
    - apply (str_forallb_impl is_digit); [|exact Hdig].
      intros c Hc. unfold media_char, tchar. rewrite Hc. reflexivity. }
  rewrite (js_trim_id _ Hmd).
  assert (Hu : unsigned_decimal d = true).
  { unfold unsigned_decimal. rewrite (span_while_all is_digit d Hdig).
    destruct d as [|c r]; [contradiction|]. simpl String.eqb at 2. cbn iota.
    apply orb_true_r. }
  assert (Hc0 : forall c r, d = String c r -> Ascii.eqb c "+" || Ascii.eqb c "-" = false).
  { intros c r ->. simpl in Hdig. apply andb_prop in Hdig as [Hc _].
    destruct c as [[] [] [] [] [] [] [] []]; first [discriminate | reflexivity]. }
  destruct d as [|c r]; [contradiction|].
  destruct Hsgn as [-> | [-> | ->]]; unfold str_decimal.
  - change ("" ++ String c r) with (String c r).
    cbn -[unsigned_decimal str_nondecimal Ascii.eqb].
    rewrite (Hc0 c r eq_refl), Hu. reflexivity.
  - change ("+" ++ String c r) with (String "+" (String c r)).
    cbn -[unsigned_decimal str_nondecimal]. rewrite Hu. reflexivity.
  - change ("-" ++ String c r) with (String "-" (String c r)).
    cbn -[unsigned_decimal str_nondecimal]. rewrite Hu. reflexivity.
Qed.

Lemma mimeMatch_true_one_slash_witness :
  count_char "/" "*/*" = 1 /\ count_char "/" "text/html" = 1.
Proof. apply (mimeMatch_true_one_slash "*/*" "text/html"). vm_compute. reflexivity. Defined.

Lemma mimeMatch_plain_segments_witness :
  mimeMatch (Some ("text" ++ "/" ++ "*")) ("text" ++ "/" ++ "html") =
  (String.eqb "text" "*" || String.eqb "text" "text") && (String.eqb "*" "*" || String.eqb "*" "html").
Proof. apply (mimeMatch_plain_segments "text" "*" "text" "html"); reflexivity. Defined.

Lemma mimeMatch_without_star_witness :
  mimeMatch (Some "text/html") "text/plain" =
  String.eqb "text/html" "text/plain" && Nat.eqb (count_char "/" "text/plain") 1.
Proof. apply mimeMatch_without_star. reflexivity. Defined.

Lemma normalize_extension_witness :
  normalize mime_db_excerpt (JStr "file.PNG") = registry_value mime_db_excerpt (js_toLowerCase "PNG") /\
  normalize mime_db_excerpt (JStr ".png") = registry_value mime_db_excerpt (js_toLowerCase "png").
Proof.
  split.
  - apply (normalize_extension mime_db_excerpt "file.PNG" "file" "PNG");
      first [reflexivity | discriminate | left; reflexivity].
  - apply (normalize_extension mime_db_excerpt ".png" "" "png");
      first [reflexivity | discriminate | left; reflexivity].
Defined.

Lemma is_wildcard_patterns_witness :
  is mime_db_excerpt (Some "Text/HTML; charset=utf-8") [JArr [JStr "*/*"]] = Ret (JStr "text/html") /\
  is mime_db_excerpt (Some "Text/HTML; charset=utf-8") [JArr [JStr ("text" ++ "/*")]] = Ret (JStr "text/html").
Proof.
  assert (Ha : tryNormalizeType (Some "Text/HTML; charset=utf-8") = Some "text/html")
    by (vm_compute; reflexivity).
  split.
  - exact (proj1 (is_wildcard_patterns mime_db_excerpt _ _ Ha)).
  - apply (proj2 (is_wildcard_patterns mime_db_excerpt _ _ Ha) "text" "html"); reflexivity.
Defined.

Lemma is_plain_pattern_witness :
  is mime_db_excerpt (Some "image/png") [JArr [JStr "png"]] =
    Ret (if String.eqb "image/png" "image/png" then JStr "png" else JBool false) /\
  is mime_db_excerpt (Some "image/png") [JArr [JStr "jpeg"]] =
    Ret (if String.eqb "image/jpeg" "image/png" then JStr "jpeg" else JBool false).
Proof.
  split.
  - apply (proj2 (is_plain_pattern mime_db_excerpt (Some "image/png") "image/png" "png"
                    eq_refl eq_refl eq_refl)); reflexivity.
  - apply (proj2 (is_plain_pattern mime_db_excerpt (Some "image/png") "image/png" "jpeg"
                    eq_refl eq_refl eq_refl)); reflexivity.
Defined.

Lemma is_suffix_pattern_witness :
  is mime_db_excerpt (Some "application/vnd+json") [JArr [JStr ("+" ++ "json")]] =
    Ret (JStr "application/vnd+json") /\
  is mime_db_excerpt (Some "application/json") [JArr [JStr ("+" ++ "json")]] = Ret (JBool false).
Proof.
  split.
  - apply (proj1 (is_suffix_pattern mime_db_excerpt (Some "application/vnd+json")
                    "application/vnd+json" "application" "vnd+json" "json" eq_refl eq_refl eq_refl)).
    exists "vnd". reflexivity.
  - apply (proj2 (is_suffix_pattern mime_db_excerpt (Some "application/json")
                    "application/json" "application" "json" "json" eq_refl eq_refl eq_refl)).
    intros [pre H]. apply (f_equal String.length) in H.
    rewrite !str_length_app in H. simpl in H. lia.
Defined.

Lemma is_shorthand_patterns_witness :
  is mime_db_excerpt (Some "multipart/form-data") [JArr [JStr "multipart"]] =
    Ret (if String.eqb "multipart" "multipart" then JStr "multipart" else JBool false) /\
  is mime_db_excerpt (Some "multipart/form-data") [JArr [JStr "urlencoded"]] =
    Ret (if String.eqb "multipart/form-data" "application/x-www-form-urlencoded"
         then JStr "urlencoded" else JBool false).
Proof.
  exact (is_shorthand_patterns mime_db_excerpt (Some "multipart/form-data")
           "multipart/form-data" "multipart" "form-data" eq_refl eq_refl).
Defined.

Lemma is_string_result_origin_witness :
  exists a, tryNormalizeType (Some "image/png") = Some a /\
    ("png" = a \/ (In (JStr "png") (acceptable_of [JStr "png"]) /\
                   mimeMatch (normalize mime_db_excerpt (JStr "png")) a = true)).
Proof.
  apply (is_string_result_origin mime_db_excerpt (Some "image/png") [JStr "png"] "png").
  vm_compute. reflexivity.
Defined.

Lemma is_typeIs_flattened_args_witness :
  is mime_db_excerpt (Some "text/html") [JStr "json"; JStr "html"] =
    is mime_db_excerpt (Some "text/html") [JArr [JStr "json"; JStr "html"]] /\
  typeIs mime_db_excerpt (headers_of [("content-length", "0")]) [JStr "json"; JStr "html"] =
    typeIs mime_db_excerpt (headers_of [("content-length", "0")]) [JArr [JStr "json"; JStr "html"]].
Proof.
  apply (is_typeIs_flattened_args mime_db_excerpt (Some "text/html")
           (headers_of [("content-length", "0")]) (JStr "json") [JStr "html"]).
  intros l H. discriminate H.
Defined.

Lemma is_actual_normal_form_witness :
  is mime_db_excerpt (Some "Text/HTML ; charset=utf-8") [JStr "text/*"] =
  is mime_db_excerpt (Some "text/html") [JStr "text/*"].
Proof.
  exact (proj2 (is_actual_normal_form mime_db_excerpt "Text/HTML ; charset=utf-8" "text/html"
                  [JStr "text/*"] ltac:(vm_compute; reflexivity))).
Defined.

Lemma is_dangling_semicolon_witness :
  is mime_db_excerpt (Some ("text/html" ++ ";" ++ " ")) [JStr "*/*"] = Ret (JBool false).
Proof.
  exact (proj2 (is_dangling_semicolon mime_db_excerpt "text/html" " " [JStr "*/*"] eq_refl eq_refl)).
Defined.

Lemma typeIs_body_without_content_type_witness :
  typeIs mime_db_excerpt (headers_of [("content-length", "0")]) [JStr "*/*"] = Ret (JBool false).
Proof.
  apply typeIs_body_without_content_type; [vm_compute; reflexivity | left; vm_compute; reflexivity].
Defined.

Lemma hasBody_typeIs_other_headers_witness :
  typeIs mime_db_excerpt (<["accept" := "*/*"]> (headers_of [("content-length", "0")])) [JStr "*/*"] =
  typeIs mime_db_excerpt (headers_of [("content-length", "0")]) [JStr "*/*"].
Proof.
  apply (proj1 (proj2 (hasBody_typeIs_other_headers mime_db_excerpt
                         (headers_of [("content-length", "0")]) "accept" "*/*" [JStr "*/*"]
                         ltac:(discriminate) ltac:(discriminate) ltac:(discriminate)))).
Defined.

Lemma hasBody_numeric_content_length_witness :
  hasBody (headers_of [("content-length", "-1")]) = true.
Proof.
  apply (hasBody_numeric_content_length _ "-" "1");
    [vm_compute; reflexivity | right; right; reflexivity | discriminate | reflexivity].
Defined.
